(** * The manifest ingestion Lambda

    A shallow embedding of [src/lambda/manifest/lambda_function.py]: the
    schema tables, [convert_data_types], the two CloudWatch Logs pagination
    loops ([find_log_streams_by_prefix], [get_log_events_by_stream_prefix])
    and [lambda_handler], followed by the properties the specification
    states about them.

    Conventions of the embedding.
    - A decoded JSON document is a [value]; a Python [dict] is the list of
      its items in insertion order (its keys are distinct), a [list] is a
      list.
    - A Python exception is a constructor of [py_exn]; code that can raise
      returns a [py_result].
    - [print] output is collected as a list of lines ([printed]) and
      [print] itself returns: a text that standard output cannot encode
      (a lone surrogate) is outside the embedding, see [texts_ascii]. The
      calls to [logger] are left out: they write log lines and do not
      raise on decoded JSON.
    - The AWS clients are functions over an abstract state of the outside
      world; a [while True] loop takes a bound on the number of rounds and
      answers [Timeout] when the bound is reached. *)

From Stdlib Require Import ZArith String Ascii List Bool Lia.
From Stdlib Require Import Floats.SpecFloat.
From stdpp Require Import base option list strings gmap pretty.

Local Open Scope string_scope.
Local Open Scope list_scope.
Local Open Scope Z_scope.

(** ** Python values *)
(** A float is kept with the text [repr] prints for it: the shortest
    decimal that reads back as the same binary64 number is not recomputed
    here. *)
Record pyfloat := PyFloat { float_val : spec_float; float_text : string }.

Unset Elimination Schemes.
Inductive value : Type :=
| VNone
| VBool (b : bool)
| VInt (n : Z)
| VFloat (x : pyfloat)
| VStr (s : string)
| VList (elems : list value)
| VDict (entries : list (string * value)).
Set Elimination Schemes.

(** Structural induction that also reaches the elements of a list and the
    values of a dict. *)
Section value_induction.
Variable P : value -> Prop.
Hypothesis HNone : P VNone.
Hypothesis HBool : forall b, P (VBool b).
Hypothesis HInt : forall n, P (VInt n).
Hypothesis HFloat : forall x, P (VFloat x).
Hypothesis HStr : forall s, P (VStr s).
Hypothesis HList : forall elems, Forall P elems -> P (VList elems).
Hypothesis HDict :
  forall entries, Forall (fun kv => P (snd kv)) entries -> P (VDict entries).

Fixpoint value_ind (v : value) : P v :=
  match v with
  | VNone => HNone
  | VBool b => HBool b
  | VInt n => HInt n
  | VFloat x => HFloat x
  | VStr s => HStr s
  | VList elems =>
      HList elems
        ((fix all (l : list value) : Forall P l :=
            match l with
            | [] => @List.Forall_nil _ P
            | e :: rest => @List.Forall_cons _ P e rest (value_ind e) (all rest)
            end) elems)
  | VDict entries =>
      HDict entries
        ((fix all (l : list (string * value)) : Forall (fun kv => P (snd kv)) l :=
            match l with
            | [] => @List.Forall_nil _ _
            | (k, w) :: rest =>
                @List.Forall_cons _ (fun kv => P (snd kv)) (k, w) rest
                  (value_ind w) (all rest)
            end) entries)
  end.
End value_induction.

(** [isinstance(v, (dict, list))] *)
Definition is_container (v : value) : bool :=
  match v with
  | VList _ | VDict _ => true
  | _ => false
  end.

(** [d.get(key)]: the value of the first item with that key. *)
Fixpoint dict_get (key : string) (entries : list (string * value)) : option value :=
  match entries with
  | [] => None
  | (k, v) :: rest => if String.eqb k key then Some v else dict_get key rest
  end.

(** ** Exceptions and printed output *)
Inductive py_exn : Type :=
| KeyError
| TypeError
| ValueError
| IndexError
| OverflowError
| RuntimeError
| AttributeError
| JSONDecodeError
| ClientError.

Inductive py_result (A : Type) : Type :=
| Return (a : A)
| Raise (e : py_exn).
Arguments Return {A} a.
Arguments Raise {A} e.

(** A computation that prints: the lines written to standard output, then
    the result or the exception that ended it. *)
Definition printed (A : Type) : Type := (list string * py_result A)%type.

Definition pret {A} (a : A) : printed A := ([], Return a).
Definition praise {A} (e : py_exn) : printed A := ([], Raise e).
Definition print (line : string) : printed unit := ([line], Return tt).
Definition pbind {A B} (m : printed A) (k : A -> printed B) : printed B :=
  match m with
  | (out, Return a) => let '(out', r) := k a in (out ++ out', r)
  | (out, Raise e) => (out, Raise e)
  end.

Notation "'let*' x := m 'in' k" := (pbind m (fun x => k))
  (at level 10, x name, m at level 100, k at level 200).

(** Runs [f] on the elements from left to right and collects the results;
    the first exception ends the loop. *)
Fixpoint for_each {A B} (f : A -> printed B) (l : list A) : printed (list B) :=
  match l with
  | [] => pret []
  | a :: rest =>
      let* b := f a in
      let* bs := for_each f rest in
      pret (b :: bs)
  end.

(** ** The built-ins [str] and [int] on decoded JSON *)
Definition quote1 : ascii := "'"%char.
Definition quote2 : ascii := ascii_of_nat 34.
Definition backslash : ascii := ascii_of_nat 92.

Definition hex_digit (n : nat) : ascii :=
  ascii_of_nat (if (n <? 10)%nat then 48 + n else 87 + n)%nat.

Fixpoint has_char (c : ascii) (s : string) : bool :=
  match s with
  | EmptyString => false
  | String c' rest => Ascii.eqb c c' || has_char c rest
  end.

(** One character of [repr(s)] inside the quotes [q]. Bytes from 128 up
    (the UTF-8 encoding of text beyond ASCII) are copied, as [repr] does
    for printable characters; the characters beyond ASCII that [repr]
    writes as an escape are not told apart. *)
Definition escape_char (q c : ascii) : string :=
  let n := nat_of_ascii c in
  if Ascii.eqb c q || Ascii.eqb c backslash then String backslash (String c "")
  else if (n =? 9)%nat then String backslash "t"
  else if (n =? 10)%nat then String backslash "n"
  else if (n =? 13)%nat then String backslash "r"
  else if (n <? 32)%nat || (n =? 127)%nat then
    String backslash (String "x" (String (hex_digit (n / 16)) (String (hex_digit (n mod 16)) "")))
  else String c "".

Fixpoint escape (q : ascii) (s : string) : string :=
  match s with
  | EmptyString => ""
  | String c rest => escape_char q c +:+ escape q rest
  end.

(** [repr(s)] for a [str]: single quotes, unless the text has a single
    quote and no double quote. *)
Definition str_repr (s : string) : string :=
  let q := if has_char quote1 s && negb (has_char quote2 s) then quote2 else quote1 in
  String q (escape q s +:+ String q "").

Fixpoint join (sep : string) (parts : list string) : string :=
  match parts with
  | [] => ""
  | [p] => p
  | p :: rest => p +:+ sep +:+ join sep rest
  end.

Fixpoint py_repr (v : value) : string :=
  match v with
  | VNone => "None"
  | VBool true => "True"
  | VBool false => "False"
  | VInt n => pretty n
  | VFloat x => float_text x
  | VStr s => str_repr s
  | VList elems => "[" +:+ join ", " (map py_repr elems) +:+ "]"
  | VDict entries =>
      "{" +:+ join ", " (map (fun '(k, w) => str_repr k +:+ ": " +:+ py_repr w) entries) +:+ "}"
  end.

(** [str(v)]; also what an f-string puts for [{v}]. The interpreter
    refuses, with [ValueError], to write an integer of more than 4300
    decimal digits; that bound is not modelled here: see [ints_print]. *)
Definition py_str (v : value) : string :=
  match v with
  | VStr s => s
  | _ => py_repr v
  end.

(** Whitespace that [int] skips around a numeral of an ASCII text: tab,
    line feed, vertical tab, form feed, carriage return and space. *)
Definition is_space (c : ascii) : bool :=
  let n := nat_of_ascii c in
  ((9 <=? n) && (n <=? 13) || (n =? 32))%nat.

Definition digit_of (c : ascii) : option Z :=
  let n := nat_of_ascii c in
  if ((48 <=? n) && (n <=? 57))%nat then Some (Z.of_nat (n - 48)) else None.

Fixpoint lstrip (cs : list ascii) : list ascii :=
  match cs with
  | c :: rest => if is_space c then lstrip rest else cs
  | [] => []
  end.

Definition strip (cs : list ascii) : list ascii := rev (lstrip (rev (lstrip cs))).

(** The digits after the first one: a digit, or one underscore and a digit. *)
Fixpoint more_digits (acc : Z) (cs : list ascii) : option Z :=
  match cs with
  | [] => Some acc
  | c :: rest =>
      match digit_of c with
      | Some d => more_digits (10 * acc + d) rest
      | None =>
          if Ascii.eqb c "_" then
            match rest with
            | c' :: rest' =>
                match digit_of c' with
                | Some d => more_digits (10 * acc + d) rest'
                | None => None
                end
            | [] => None
            end
          else None
      end
  end.

Definition digits (cs : list ascii) : option Z :=
  match cs with
  | c :: rest =>
      match digit_of c with
      | Some d => more_digits d rest
      | None => None
      end
  | [] => None
  end.

(** [int(s)] for a [str], base ten; [None] is [ValueError]. The numeral is
    read as ASCII: the decimal digits and the blanks of other scripts,
    which [int] also accepts, are not, nor is the interpreter's bound on
    the number of digits. *)
Definition int_of_str (s : string) : option Z :=
  match strip (list_ascii_of_string s) with
  | c :: rest =>
      if Ascii.eqb c "+" then digits rest
      else if Ascii.eqb c "-" then Z.opp <$> digits rest
      else digits (c :: rest)
  | [] => None
  end.

(** [int(x)] for a finite float: the integer part, rounded towards zero. *)
Definition float_trunc (s : bool) (m : positive) (e : Z) : Z :=
  let magnitude := if 0 <=? e then Z.pos m * 2 ^ e else Z.pos m / 2 ^ (- e) in
  if s then - magnitude else magnitude.

Definition py_int (v : value) : py_result value :=
  match v with
  | VNone => Raise TypeError
  | VBool b => Return (VInt (if b then 1 else 0))
  | VInt n => Return (VInt n)
  | VFloat x =>
      match float_val x with
      | S754_zero _ => Return (VInt 0)
      | S754_infinity _ => Raise OverflowError
      | S754_nan => Raise ValueError
      | S754_finite s m e => Return (VInt (float_trunc s m e))
      end
  | VStr s =>
      match int_of_str s with
      | Some n => Return (VInt n)
      | None => Raise ValueError
      end
  | VList _ | VDict _ => Raise TypeError
  end.

(** ** Schema registry *)
(** The two types the schema tables name. *)
Inductive pytype : Type := str | int.

Definition type_name (t : pytype) : string :=
  match t with
  | str => "str"
  | int => "int"
  end.

(** [target_type(value)] *)
Definition call_type (target_type : pytype) (v : value) : py_result value :=
  match target_type with
  | str => Return (VStr (py_str v))
  | int => py_int v
  end.

Definition RUN_MANIFEST_SCHEMA : gmap string pytype :=
  list_to_map
    [ ("arn", str); ("creationTime", str); ("digest", str); ("failureReason", str);
      ("metrics", str); ("name", str); ("outputUri", str); ("parameterTemplate", str);
      ("parameters", str); ("resourceDigests", str); ("roleArn", str);
      ("startTime", str); ("startedBy", str); ("status", str);
      ("statusMessage", str); ("stopTime", str); ("storageType", str);
      ("uuid", str); ("workflow", str) ].

Definition TASK_MANIFEST_SCHEMA : gmap string pytype :=
  list_to_map
    [ ("arn", str); ("cpus", int); ("creationTime", str); ("failureReason", str);
      ("gpus", int); ("image", str); ("instanceType", str); ("memory", int);
      ("metrics", str); ("name", str); ("run", str); ("startTime", str);
      ("status", str); ("statusMessage", str); ("stopTime", str); ("uuid", str);
      ("workflow", str) ].

(** ** Type coercion: [convert_data_types] *)
Definition conversion_warning (v : value) (key : string) (target_type : pytype) : string :=
  "Could not convert value '" +:+ py_str v +:+ "' for key '" +:+ key
  +:+ "' to type '" +:+ type_name target_type +:+ "'".

(** The body of [for key, value in data.items()]: what [data[key]] holds
    after the round. [recurse] is the recursive call on a nested value,
    which converts it in place. *)
Definition convert_entry (type_mapping : gmap string pytype)
    (recurse : value -> printed value) (key : string) (v : value) : printed value :=
  match type_mapping !! key with
  | Some target_type =>
      match v with
      | VNone => pret VNone
      | _ =>
          match call_type target_type v with
          | Return converted => pret converted
          | Raise ValueError =>
              let* _ := print (conversion_warning v key target_type) in
              pret v
          | Raise e => praise e
          end
      end
  | None => if is_container v then recurse v else pret v
  end.

(** The body of [for item in data]. *)
Definition convert_item (recurse : value -> printed value) (item : value) : printed value :=
  if is_container item then recurse item else pret item.

Fixpoint convert_data_types (data : value) (type_mapping : gmap string pytype)
    {struct data} : printed value :=
  match data with
  | VDict entries =>
      let* entries' :=
        for_each
          (fun '(key, v) =>
             let* v' := convert_entry type_mapping
                          (fun nested => convert_data_types nested type_mapping) key v in
             pret (key, v'))
          entries in
      pret (VDict entries')
  | VList elems =>
      let* elems' :=
        for_each (convert_item (fun nested => convert_data_types nested type_mapping)) elems in
      pret (VList elems')
  | _ => pret data
  end.

(** ** Shapes of documents *)
(** The keys of every mapping and the length of every sequence of a
    document, at every depth. *)
Unset Elimination Schemes.
Inductive shape : Type :=
| Leaf
| Seq (elems : list shape)
| Map (fields : list (string * shape)).
Set Elimination Schemes.

Fixpoint shape_of (v : value) : shape :=
  match v with
  | VList elems => Seq (map shape_of elems)
  | VDict entries => Map (map (fun '(k, w) => (k, shape_of w)) entries)
  | _ => Leaf
  end.

(** The part of the shape that [convert_data_types] walks: it does not
    look inside the value of a key of the schema. *)
Fixpoint walked_shape (type_mapping : gmap string pytype) (v : value) : shape :=
  match v with
  | VList elems => Seq (map (walked_shape type_mapping) elems)
  | VDict entries =>
      Map (map (fun '(k, w) =>
                  (k, match type_mapping !! k with
                      | Some _ => Leaf
                      | None => walked_shape type_mapping w
                      end)) entries)
  | _ => Leaf
  end.

(** ** Text operations used by the handler *)
(** [s.startswith(pat)] *)
Fixpoint starts_with (pat s : string) : bool :=
  match pat, s with
  | EmptyString, _ => true
  | String a pat', String b s' => Ascii.eqb a b && starts_with pat' s'
  | String _ _, EmptyString => false
  end.

(** [pat in s] for two texts. *)
Fixpoint str_contains (pat s : string) : bool :=
  starts_with pat s
  || match s with
     | EmptyString => false
     | String _ s' => str_contains pat s'
     end.

(** [s.split(sep)] for a separator of one character. *)
Fixpoint split_on (sep : ascii) (s : string) : list string :=
  match s with
  | EmptyString => [""]
  | String c rest =>
      if Ascii.eqb c sep then "" :: split_on sep rest
      else match split_on sep rest with
           | piece :: pieces => String c piece :: pieces
           | [] => [String c ""]
           end
  end.

(** The specification's reading of "contains the substring". *)
Definition is_substring (pat s : string) : Prop :=
  exists before after, s = before +:+ pat +:+ after.

(** ** Record classifier *)
Inductive manifest_kind : Type := Run | Task | Unknown.

(** The [if]/[elif]/[else] over the record's [arn] in [lambda_handler]. *)
Definition classify (arn : string) : manifest_kind :=
  if str_contains ":run/" arn then Run
  else if str_contains ":task/" arn then Task
  else Unknown.

(** ** The AWS clients *)
(** [boto3.Session(profile_name=..., region_name=...)] *)
Record session : Type := Session {
  session_profile : option string;
  session_region : string
}.

Record log_stream : Type := LogStream {
  logStreamName : string;
  lastEventTimestamp : option Z
}.

Record log_event : Type := LogEvent {
  timestamp : Z;
  message : string
}.

(** Keyword arguments and response of [describe_log_streams]. A key that
    is absent from [params] or from the response is [None]. *)
Record describe_params : Type := DescribeParams {
  dp_logGroupName : string;
  dp_logStreamNamePrefix : string;
  dp_orderBy : string;
  dp_descending : bool;
  dp_limit : option Z;
  dp_nextToken : option string
}.

Record describe_response : Type := DescribeResponse {
  dr_logStreams : option (list log_stream);
  dr_nextToken : option string
}.

(** Keyword arguments and response of [get_log_events]. *)
Record events_params : Type := EventsParams {
  ep_logGroupName : string;
  ep_logStreamName : string;
  ep_startFromHead : bool;
  ep_startTime : option Z;
  ep_endTime : option Z;
  ep_nextToken : option string
}.

Record events_response : Type := EventsResponse {
  er_events : option (list log_event);
  er_nextForwardToken : option string
}.

(** The requests sent to AWS, in the order they are made. *)
Inductive call : Type :=
| DescribeLogStreams (s : session) (p : describe_params)
| GetLogEvents (s : session) (p : events_params)
| PutObject (bucket key body : string).

(** Truth value of an optional text ([if next_token:]) and of an optional
    integer ([if limit:]). *)
Definition truthy_str (t : option string) : bool :=
  match t with
  | None | Some EmptyString => false
  | Some _ => true
  end.

Definition truthy_int (n : option Z) : bool :=
  match n with
  | None | Some 0 => false
  | Some _ => true
  end.

(** [l[:n]] *)
Definition slice_to (n : Z) {A} (l : list A) : list A :=
  if 0 <=? n then take (Z.to_nat n) l
  else take (Z.to_nat (Z.of_nat (length l) + n)) l.

(** [next_token == params.get('nextToken')] *)
Definition token_eqb (a b : option string) : bool :=
  match a, b with
  | Some x, Some y => String.eqb x y
  | None, None => true
  | _, _ => false
  end.

(** [d[key] = v] on the items of a dict. *)
Fixpoint dict_set {A} (key : string) (v : A) (entries : list (string * A)) : list (string * A) :=
  match entries with
  | [] => [(key, v)]
  | (k, w) :: rest =>
      if String.eqb k key then (k, v) :: rest else (k, w) :: dict_set key v rest
  end.

(** [v[key]] for a text key. *)
Definition getitem (v : value) (key : string) : py_result value :=
  match v with
  | VDict entries =>
      match dict_get key entries with
      | Some w => Return w
      | None => Raise KeyError
      end
  | _ => Raise TypeError
  end.

(** [pat in v] for a text [pat]: a substring of a text, an element of a
    list, a key of a dict; a [TypeError] on the rest. *)
Definition contains (pat : string) (v : value) : py_result bool :=
  match v with
  | VStr s => Return (str_contains pat s)
  | VList elems =>
      Return (existsb (fun e => match e with VStr s => String.eqb s pat | _ => false end) elems)
  | VDict entries => Return (existsb (fun kv => String.eqb (fst kv) pat) entries)
  | _ => Raise TypeError
  end.

(** [<prefix>/<namespace>/<identifier>.json] *)
Definition destination_key (prefix namespace identifier : string) : string :=
  prefix +:+ "/" +:+ namespace +:+ "/" +:+ identifier +:+ ".json".

(** The outcome of a run of the handler or of one of its functions. *)
Inductive outcome (A : Type) : Type :=
| Done (a : A)
| Failed (e : py_exn)
| Timeout.
Arguments Done {A} a.
Arguments Failed {A} e.
Arguments Timeout {A}.

(** [context] and the handler's results. *)
Record lambda_context : Type := LambdaContext { invoked_function_arn : string }.

Definition status_response (code : Z) (body : string) : value :=
  VDict [("statusCode", VInt code); ("body", VStr body)].

(** ** The pipeline over the AWS clients *)
Section Pipeline.
(** The state of the outside world, and the clients and the JSON codec
    as functions on it. *)
Context {W : Type}.
Variable describe_log_streams :
  session -> describe_params -> W -> py_result describe_response * W.
Variable get_log_events :
  session -> events_params -> W -> py_result events_response * W.
Variable put_object : string -> string -> string -> W -> py_result unit * W.
Variable json_loads : string -> py_result value.
Variable json_dumps : value -> string.

Record state : Type := State {
  world : W;
  calls : list call;
  stdout : list string
}.

Definition M (A : Type) : Type := state -> outcome A * state.

Definition ret {A} (a : A) : M A := fun st => (Done a, st).
Definition fail {A} (e : py_exn) : M A := fun st => (Failed e, st).
Definition timeout {A} : M A := fun st => (Timeout, st).
Definition bind {A B} (m : M A) (k : A -> M B) : M B :=
  fun st =>
    match m st with
    | (Done a, st') => k a st'
    | (Failed e, st') => (Failed e, st')
    | (Timeout, st') => (Timeout, st')
    end.

Local Notation "x <- m ;; k" := (bind m (fun x => k))
  (at level 100, m at next level, right associativity).

Definition lift {A} (r : py_result A) : M A :=
  match r with
  | Return a => ret a
  | Raise e => fail e
  end.

(** A computation that prints, run inside the handler. *)
Definition lift_printed {A} (p : printed A) : M A :=
  fun st =>
    let st' := State (world st) (calls st) (stdout st ++ fst p) in
    match snd p with
    | Return a => (Done a, st')
    | Raise e => (Failed e, st')
    end.

(** One request [c] to AWS, answered by [answer]. *)
Definition client_call {A} (c : call) (answer : W -> py_result A * W) : M A :=
  fun st =>
    let '(r, w) := answer (world st) in
    let st' := State w (calls st ++ [c]) (stdout st) in
    match r with
    | Return a => (Done a, st')
    | Raise e => (Failed e, st')
    end.

Fixpoint for_each_M {A} (body : A -> M unit) (l : list A) : M unit :=
  match l with
  | [] => ret tt
  | a :: rest => _ <- body a ;; for_each_M body rest
  end.

Definition make_session (profile_name : option string) (region : string) : session :=
  if truthy_str profile_name then Session profile_name region else Session None region.

Definition write_json_to_s3 (bucket_name file_name : string) (json_data : value) : M unit :=
  let body := json_dumps json_data in
  client_call (PutObject bucket_name file_name body) (put_object bucket_name file_name body).

(** The [while True] loop of [find_log_streams_by_prefix]. *)
Fixpoint describe_loop (fuel : nat) (ses : session) (limit : option Z)
    (params : describe_params) (all_streams : list log_stream)
    (next_token : option string) : M (list log_stream) :=
  match fuel with
  | O => timeout
  | S fuel' =>
      let params :=
        if truthy_str next_token
        then DescribeParams (dp_logGroupName params) (dp_logStreamNamePrefix params)
               (dp_orderBy params) (dp_descending params) (dp_limit params) next_token
        else params in
      response <- client_call (DescribeLogStreams ses params)
                    (describe_log_streams ses params) ;;
      let all_streams := all_streams ++ default [] (dr_logStreams response) in
      let next_token := dr_nextToken response in
      if negb (truthy_str next_token)
         || (truthy_int limit && (default 0 limit <=? Z.of_nat (length all_streams)))
      then ret all_streams
      else describe_loop fuel' ses limit params all_streams next_token
  end.

Definition find_log_streams_by_prefix (fuel : nat) (log_group_name prefix region : string)
    (limit : option Z) (order_by : string) (descending : bool)
    (profile_name : option string) : M (list log_stream) :=
  let ses := make_session profile_name region in
  let params :=
    DescribeParams log_group_name prefix order_by descending
      (if truthy_int limit then limit else None) None in
  all_streams <- describe_loop fuel ses limit params [] None ;;
  ret (if truthy_int limit && (default 0 limit <? Z.of_nat (length all_streams))
       then slice_to (default 0 limit) all_streams
       else all_streams).

(** The [while True] loop of [get_log_events_by_stream_prefix], for one
    stream. *)
Fixpoint events_loop (fuel : nat) (ses : session) (params : events_params)
    (stream_events : list log_event) (next_token : option string) : M (list log_event) :=
  match fuel with
  | O => timeout
  | S fuel' =>
      let params :=
        if truthy_str next_token
        then EventsParams (ep_logGroupName params) (ep_logStreamName params)
               (ep_startFromHead params) (ep_startTime params) (ep_endTime params)
               next_token
        else params in
      response <- client_call (GetLogEvents ses params) (get_log_events ses params) ;;
      let events := default [] (er_events response) in
      let stream_events := stream_events ++ events in
      let next_token := er_nextForwardToken response in
      if negb (truthy_str next_token) || token_eqb next_token (ep_nextToken params)
      then ret stream_events
      else events_loop fuel' ses params stream_events next_token
  end.

(** The [for stream in streams] loop. *)
Fixpoint collect_events (fuel : nat) (ses : session) (log_group_name : string)
    (start_time end_time : option Z) (streams : list log_stream)
    (all_events : list (string * list log_event)) : M (list (string * list log_event)) :=
  match streams with
  | [] => ret all_events
  | stream :: rest =>
      let stream_name := logStreamName stream in
      _ <- lift_printed (print ("Fetching events from stream: " +:+ stream_name)) ;;
      let params :=
        EventsParams log_group_name stream_name true
          (if truthy_int start_time then start_time else None)
          (if truthy_int end_time then end_time else None) None in
      stream_events <- events_loop fuel ses params [] None ;;
      collect_events fuel ses log_group_name start_time end_time rest
        (dict_set stream_name stream_events all_events)
  end.

Definition get_log_events_by_stream_prefix (fuel : nat)
    (log_group_name prefix region : string) (start_time end_time : option Z)
    (max_streams : Z) (profile_name : option string)
    : M (list (string * list log_event)) :=
  streams <- find_log_streams_by_prefix fuel log_group_name prefix region
               (Some max_streams) "LogStreamName" true profile_name ;;
  let ses := make_session profile_name region in
  collect_events fuel ses log_group_name start_time end_time streams [].

(** The body of [for event in stream_events] in [lambda_handler]. *)
Definition store_manifest (DATA_LAKE_BUCKET S3_PREFIX S3_KEY_RUN : string)
    (event : log_event) : M unit :=
  event_message <- lift (json_loads (message event)) ;;
  arn <- lift (getitem event_message "arn") ;;
  is_run <- lift (contains ":run/" arn) ;;
  if is_run : bool then
    transformed_event_message <-
      lift_printed (convert_data_types event_message RUN_MANIFEST_SCHEMA) ;;
    write_json_to_s3 DATA_LAKE_BUCKET S3_KEY_RUN transformed_event_message
  else
    is_task <- lift (contains ":task/" arn) ;;
    if is_task : bool then
      task_id <- match arn with
                 | VStr s => ret (List.last (split_on "/" s) "")
                 | _ => fail AttributeError
                 end ;;
      let S3_KEY_TASK := S3_PREFIX +:+ "/tasks/" +:+ task_id +:+ ".json" in
      transformed_event_message <-
        lift_printed (convert_data_types event_message TASK_MANIFEST_SCHEMA) ;;
      write_json_to_s3 DATA_LAKE_BUCKET S3_KEY_TASK transformed_event_message
    else fail RuntimeError.

Definition lambda_handler (fuel : nat) (environ : gmap string string)
    (event : value) (context : lambda_context) : M value :=
  let arn_elements := split_on ":" (invoked_function_arn context) in
  OMICS_AWS_REGION <- match arn_elements !! 3%nat with
                      | Some region => ret region
                      | None => fail IndexError
                      end ;;
  DATA_LAKE_BUCKET <- match environ !! "DATA_LAKE_BUCKET" with
                      | Some bucket => ret bucket
                      | None => fail ValueError
                      end ;;
  let S3_PREFIX := default "" (environ !! "S3_PREFIX") in
  match match getitem event "detail" with
        | Return detail => getitem detail "runId"
        | Raise e => Raise e
        end
  with
  | Raise KeyError =>
      ret (status_response 400 (json_dumps (VStr "Missing required event detail")))
  | Raise e => fail e
  | Return run_id =>
      let manifest_log_stream_prefix := "manifest/run/" +:+ py_str run_id in
      streams <- find_log_streams_by_prefix fuel "/aws/omics/WorkflowLog"
                   manifest_log_stream_prefix OMICS_AWS_REGION (Some 10)
                   "LogStreamName" true None ;;
      stream <- match streams with
                | first :: _ => ret first
                | [] => fail IndexError
                end ;;
      events <- get_log_events_by_stream_prefix fuel "/aws/omics/WorkflowLog"
                  (logStreamName stream) OMICS_AWS_REGION None None 1 None ;;
      let S3_KEY_RUN := S3_PREFIX +:+ "/runs/" +:+ py_str run_id +:+ ".json" in
      _ <- for_each_M
             (fun '(stream_name, stream_events) =>
                for_each_M (store_manifest DATA_LAKE_BUCKET S3_PREFIX S3_KEY_RUN)
                  stream_events)
             events ;;
      ret (status_response 200 "Manifest ETL complete")
  end.

(** The document that [store_manifest] writes for an event whose record
    is run-level, if it is one and its conversion returns. *)
Definition run_body (event : log_event) : option string :=
  match json_loads (message event) with
  | Return event_message =>
      match getitem event_message "arn" with
      | Return arn =>
          match contains ":run/" arn with
          | Return true =>
              match convert_data_types event_message RUN_MANIFEST_SCHEMA with
              | (_, Return doc) => Some (json_dumps doc)
              | (_, Raise _) => None
              end
          | _ => None
          end
      | Raise _ => None
      end
  | Raise _ => None
  end.

(** The identifier of a task-level record: the last [/] segment of its
    [arn]. *)
Definition task_identifier (event : log_event) : option string :=
  match json_loads (message event) with
  | Return event_message =>
      match getitem event_message "arn" with
      | Return (VStr s) =>
          if str_contains ":run/" s then None
          else if str_contains ":task/" s then Some (List.last (split_on "/" s) "")
          else None
      | _ => None
      end
  | Raise _ => None
  end.

(** The document written for a record converted with [schema]. *)
Definition manifest_body (schema : gmap string pytype) (event : log_event) : option string :=
  match json_loads (message event) with
  | Return event_message =>
      match convert_data_types event_message schema with
      | (_, Return doc) => Some (json_dumps doc)
      | (_, Raise _) => None
      end
  | Raise _ => None
  end.

End Pipeline.

(** ** The object store as seen through the requests *)
(** The objects written by a sequence of requests, oldest first. *)
Fixpoint puts (l : list call) : list (string * string * string) :=
  match l with
  | [] => []
  | PutObject bucket key body :: rest => (bucket, key, body) :: puts rest
  | _ :: rest => puts rest
  end.

(** The content of the store after these writes: a write replaces the
    whole object at its key. *)
Definition store_after (writes : list (string * string * string))
    (store : gmap (string * string) string) : gmap (string * string) string :=
  fold_left (fun m '(bucket, key, body) => <[(bucket, key) := body]> m) writes store.

(** ** Pagination against a scripted log service *)
(** A client that answers its requests from a script: the request number
    [i] gets [script i], whatever it asks. The state of the world is the
    number of requests answered so far. *)
Definition scripted {P R : Type} (script : nat -> R)
    : session -> P -> nat -> py_result R * nat :=
  fun _ _ i => (Return (script i), S i).

(** The events of the pages [from], ..., [from + count - 1]. *)
Definition pages_events (script : nat -> events_response) (from count : nat) : list log_event :=
  flat_map (fun j => default [] (er_events (script j))) (seq from count).

(** The token in request [k] of the events loop: none at first, then the
    token of the previous page. *)
Definition sent_token (script : nat -> events_response) (k : nat) : option string :=
  match k with
  | O => None
  | S j => er_nextForwardToken (script j)
  end.

(** The loop's exit test on page [k]: no token, or the token just sent. *)
Definition events_stop (script : nat -> events_response) (k : nat) : bool :=
  negb (truthy_str (er_nextForwardToken (script k)))
  || token_eqb (er_nextForwardToken (script k)) (sent_token script k).

(** The streams of the pages [from], ..., [from + count - 1]. *)
Definition pages_streams (script : nat -> describe_response) (from count : nat)
    : list log_stream :=
  flat_map (fun j => default [] (dr_logStreams (script j))) (seq from count).

(** The exit test of the streams loop on page [k]: no token, or a limit
    that the streams read so far have reached. *)
Definition describe_stop (limit : option Z) (script : nat -> describe_response) (k : nat)
    : bool :=
  negb (truthy_str (dr_nextToken (script k)))
  || (truthy_int limit
      && (default 0 limit <=? Z.of_nat (length (pages_streams script 0 (S k))))).

(** ** Records, log services and a small world used as examples *)

(** A record with a nested mapping under a key that no schema names. *)
Definition nested_task_record : list (string * value) :=
  [ ("arn", VStr "arn:aws:omics:us-east-1:123456789012:task/7654321");
    ("details", VDict [("cpus", VStr "4")]);
    ("attempt", VInt 2) ].

(** A task record whose [cpus] field holds a sequence. *)
Definition task_record_cpus_list : value :=
  VDict [ ("arn", VStr "arn:aws:omics:us-east-1:123456789012:task/7654321");
          ("cpus", VList [VInt 4]);
          ("memory", VStr "8") ].

(** A run record whose [parameters] field is a nested mapping. *)
Definition run_record_nested_parameters : value :=
  VDict [ ("arn", VStr "arn:aws:omics:us-east-1:123456789012:run/1234567");
          ("parameters", VDict [("sample", VStr "NA12878"); ("depth", VInt 30)]);
          ("tags", VList [VStr "a"; VStr "b"]) ].

(** An identifier with both segments. *)
Definition arn_run_and_task : string :=
  "arn:aws:omics:us-east-1:123456789012:run/1234567:task/7654321".

(** The session and the request that [lambda_handler] uses for the stream
    of run 1234567. *)
Definition handler_session : session := Session None "us-east-1".

Definition run_stream_params : events_params :=
  EventsParams "/aws/omics/WorkflowLog" "manifest/run/1234567" true None None None.

(** A log service that answers every request with one event and the same
    token. *)
Definition stable_token_script (i : nat) : events_response :=
  EventsResponse (Some [LogEvent (Z.of_nat i) "{}"]) (Some "f/0000").

(** A log service whose tokens alternate between two values. *)
Fixpoint even_page (i : nat) : bool :=
  match i with
  | O => true
  | S j => negb (even_page j)
  end.

Definition alternating_token_script (i : nat) : events_response :=
  EventsResponse (Some []) (Some (if even_page i then "f/0001" else "f/0002")).

(** A log service with two streams on every page and always a token. *)
Definition two_streams_script (i : nat) : describe_response :=
  DescribeResponse
    (Some [ LogStream "manifest/run/1234567/a" (Some (Z.of_nat i));
            LogStream "manifest/run/1234567/b" (Some (Z.of_nat i)) ])
    (Some "next").

(** A log service whose pages are empty and always carry a token. *)
Definition endless_empty_script (i : nat) : describe_response :=
  DescribeResponse (Some []) (Some "next").

(** ** A run of the handler against a small world *)

(** The log group holds the manifest stream of run 1234567 with three
    records: the run's own, one of its tasks, and a run-level record whose
    [arn] names another run. The world is the number of requests answered.
    The JSON codec of the example knows these three messages, and prints
    a document the way [repr] does. *)
Definition run_manifest : value :=
  VDict [ ("arn", VStr "arn:aws:omics:us-east-1:123456789012:run/1234567");
          ("status", VStr "COMPLETED");
          ("resourceDigests", VList [VInt 30]) ].

Definition task_manifest : value :=
  VDict [ ("arn", VStr "arn:aws:omics:us-east-1:123456789012:task/7654321");
          ("cpus", VStr "4");
          ("memory", VInt 8);
          ("run", VStr "arn:aws:omics:us-east-1:123456789012:run/1234567") ].

Definition other_run_manifest : value :=
  VDict [ ("arn", VStr "arn:aws:omics:us-east-1:123456789012:run/9999999");
          ("status", VStr "FAILED") ].

Definition example_loads (text : string) : py_result value :=
  if String.eqb text "run manifest" then Return run_manifest
  else if String.eqb text "task manifest" then Return task_manifest
  else if String.eqb text "other run manifest" then Return other_run_manifest
  else Raise JSONDecodeError.

Definition example_dumps (doc : value) : string := py_repr doc.

Definition example_put : string -> string -> string -> nat -> py_result unit * nat :=
  fun _ _ _ i => (Return tt, S i).

Definition example_streams
    : session -> describe_params -> nat -> py_result describe_response * nat :=
  scripted (fun _ => DescribeResponse (Some [LogStream "manifest/run/1234567/0001" None]) None).

Definition no_streams
    : session -> describe_params -> nat -> py_result describe_response * nat :=
  scripted (fun _ => DescribeResponse (Some []) None).

Definition example_events
    : session -> events_params -> nat -> py_result events_response * nat :=
  scripted (fun _ =>
              EventsResponse
                (Some [ LogEvent 1 "run manifest"; LogEvent 2 "task manifest";
                        LogEvent 3 "other run manifest" ])
                None).

Definition example_environ : gmap string string :=
  {[ "DATA_LAKE_BUCKET" := "data-lake"; "S3_PREFIX" := "workflow_manifest" ]}.

Definition example_context : lambda_context :=
  LambdaContext "arn:aws:lambda:us-east-1:123456789012:function:manifest-etl".

Definition run_event : value :=
  VDict [ ("source", VStr "aws.omics");
          ("detail", VDict [("runId", VStr "1234567"); ("status", VStr "COMPLETED")]) ].

Definition event_without_runId : list (string * value) :=
  [ ("source", VStr "aws.omics"); ("detail", VDict [("status", VStr "COMPLETED")]) ].

Definition start : @state nat := State 0%nat [] [].


(** The invocation for run 1234567, its stream lookup and its reading of
    the stream found. *)
Definition example_invocation (st : @state nat) : outcome value * @state nat :=
  lambda_handler example_streams example_events example_put example_loads example_dumps
    5 example_environ run_event example_context st.




(** ** Requests that a computation may make *)

(** Every request that [m] adds to the trace, from whatever state and
    with whatever outcome, satisfies [R]. *)
Definition only {W A : Type} (R : call -> Prop) (m : @M W A) : Prop :=
  forall st, exists l, calls (snd (m st)) = calls st ++ l /\ Forall R l.

(** A stream lookup for the given group, prefix and order. *)
Definition is_stream_lookup (ses : session) (log_group_name prefix order_by : string)
    (descending : bool) (limit : option Z) (c : call) : Prop :=
  exists token,
    c = DescribeLogStreams ses
          (DescribeParams log_group_name prefix order_by descending limit token).

(** A read of the log service. *)
Definition is_log_read (c : call) : Prop :=
  match c with
  | PutObject _ _ _ => False
  | _ => True
  end.

(** A read of the log service, or a write into the configured bucket
    under [<prefix>/runs/] or [<prefix>/tasks/]. *)
Definition is_manifest_request (bucket : option string) (prefix : string) (c : call)
    : Prop :=
  match c with
  | PutObject b key _ =>
      bucket = Some b
      /\ exists namespace identifier,
           (namespace = "runs" \/ namespace = "tasks")
           /\ key = destination_key prefix namespace identifier
  | _ => True
  end.

(** ** The caller: [scripts/reprocess_runs.py] *)

(** The event that [main] builds for a run and sends to each processor
    Lambda (as JSON, which the Lambda runtime decodes again). *)
Definition reprocess_payload (run caller_account time : string)
    (caller_aws_region : option string) (run_status workflow_name : value) : value :=
  VDict [ ("version", VStr "0");
          ("id", VStr ("reprocess-" +:+ run));
          ("detail-type", VStr "Omics Workflow Run Status Change");
          ("source", VStr "reprocess_runs.py");
          ("account", VStr caller_account);
          ("time", VStr time);
          ("region", match caller_aws_region with
                     | Some region => VStr region
                     | None => VNone
                     end);
          ("detail", VDict [ ("runId", VStr run);
                             ("status", run_status);
                             ("workflowName", workflow_name);
                             ("reprocess", VBool true) ]) ].

(** The loop [for run in page['items']] of [list_workflow_runs]: [inl] is
    the [return] from inside the loop, [inr] the list to go on with. *)
Fixpoint list_runs_page {A} (max_runs : Z) (items : list A) (runs : list A)
    : list A + list A :=
  match items with
  | [] => inr runs
  | run :: rest =>
      let runs := runs ++ [run] in
      if max_runs <=? Z.of_nat (length runs) then inl runs
      else list_runs_page max_runs rest runs
  end.

(** The loop [for page in paginator.paginate()]. *)
Fixpoint list_runs_pages {A} (max_runs : Z) (pages : list (list A)) (runs : list A)
    : list A :=
  match pages with
  | [] => runs
  | items :: rest =>
      match list_runs_page max_runs items runs with
      | inl runs => runs
      | inr runs => list_runs_pages max_runs rest runs
      end
  end.

(** [list_workflow_runs], over the pages that the paginator yields (the
    [items] of each). *)
Definition list_workflow_runs {A} (pages : list (list A)) (max_runs : Z) : list A :=
  list_runs_pages max_runs pages [].

(** ** More records for the examples *)

(** A task record whose [cpus] cannot be read as an integer. *)
Definition task_manifest_unreadable : list (string * value) :=
  [ ("arn", VStr "arn:aws:omics:us-east-1:123456789012:task/7654321");
    ("cpus", VStr "four");
    ("memory", VStr "8") ].

(** A task record whose [memory] is the float infinity. *)
Definition task_manifest_infinite : value :=
  VDict [ ("arn", VStr "arn:aws:omics:us-east-1:123456789012:task/7654321");
          ("memory", VFloat (PyFloat (S754_infinity false) "inf")) ].

(** A record that is neither run-level nor task-level, and a codec that
    also knows its message. *)
Definition workflow_manifest : value :=
  VDict [ ("arn", VStr "arn:aws:omics:us-east-1:123456789012:workflow/2468013");
          ("status", VStr "ACTIVE") ].

Definition example_loads_workflow (text : string) : py_result value :=
  if String.eqb text "workflow manifest" then Return workflow_manifest
  else example_loads text.

(** An event whose [detail] is [null]. *)
Definition event_null_detail : list (string * value) :=
  [ ("source", VStr "aws.omics"); ("detail", VNone) ].

(** ** Documents that [str] and [print] accept *)

(** [sys.get_int_max_str_digits()], as the interpreter starts. *)
Definition int_max_str_digits : Z := 4300.

(** [str(n)] returns: [n] has at most [int_max_str_digits] digits. *)
Definition int_prints (n : Z) : bool := Z.abs n <? 10 ^ int_max_str_digits.

(** Every integer of the document, at any depth, can be written by [str]
    and [repr]. *)
Fixpoint ints_print (v : value) : bool :=
  match v with
  | VInt n => int_prints n
  | VList elems => forallb ints_print elems
  | VDict entries => forallb (fun '(k, w) => ints_print w) entries
  | _ => true
  end.

Definition is_ascii (s : string) : bool :=
  forallb (fun c => (nat_of_ascii c <? 128)%nat) (list_ascii_of_string s).

(** Every text and every key of the document, at any depth, is ASCII:
    [print] can write it whatever the encoding of standard output. *)
Fixpoint texts_ascii (v : value) : bool :=
  match v with
  | VStr s => is_ascii s
  | VList elems => forallb texts_ascii elems
  | VDict entries => forallb (fun '(k, w) => is_ascii k && texts_ascii w) entries
  | _ => true
  end.

(** * Properties *)

(** ** Properties of [convert_data_types] *)
Lemma pbind_Return {A B} (m : printed A) (k : A -> printed B) out b :
  pbind m k = (out, Return b) ->
  exists o1 a o2, m = (o1, Return a) /\ k a = (o2, Return b) /\ out = o1 ++ o2.
Proof.
  unfold pbind. destruct m as [o1 [a|e]]; [|discriminate].
  destruct (k a) as [o2 r] eqn:Hk. intros [= <- ->]. eauto 6.
Qed.

Lemma pret_Return {A} (a b : A) out : pret a = (out, Return b) -> a = b /\ out = [].
Proof. unfold pret. intros [= <- <-]. auto. Qed.

Lemma for_each_Return {A B} (f : A -> printed B) l out l' :
  for_each f l = (out, Return l') ->
  Forall2 (fun a b => exists o, f a = (o, Return b)) l l'.
Proof.
  revert out l'. induction l as [|a rest IH]; simpl; intros out l' H.
  - apply pret_Return in H as [<- _]. constructor.
  - apply pbind_Return in H as (o1 & b & o2 & Hf & H & _).
    apply pbind_Return in H as (o3 & bs & o4 & Hrest & H & _).
    apply pret_Return in H as [<- _].
    constructor; eauto.
Qed.

(** What one round of the loop over the items leaves under its key. *)
Lemma convert_entry_Return type_mapping recurse key v out v' :
  convert_entry type_mapping recurse key v = (out, Return v') ->
  match type_mapping !! key with
  | Some _ => True
  | None => if is_container v then recurse v = (out, Return v') else v' = v
  end.
Proof.
  unfold convert_entry. destruct (type_mapping !! key); [trivial|].
  destruct (is_container v); [trivial|]. intros H. apply pret_Return in H as [-> _]. reflexivity.
Qed.

Lemma convert_dict_Return entries type_mapping out data' :
  convert_data_types (VDict entries) type_mapping = (out, Return data') ->
  exists entries', data' = VDict entries' /\
    Forall2 (fun kv kv' =>
               fst kv' = fst kv /\
               exists o, convert_entry type_mapping
                           (fun nested => convert_data_types nested type_mapping)
                           (fst kv) (snd kv) = (o, Return (snd kv')))
            entries entries'.
Proof.
  simpl. intros H.
  apply pbind_Return in H as (o1 & entries' & o2 & Hloop & H & _).
  apply pret_Return in H as [<- _].
  exists entries'. split; [reflexivity|].
  apply for_each_Return in Hloop.
  induction Hloop as [|[k v] [k' v'] l l' [o Hstep] _ IH]; constructor; [|exact IH].
  apply pbind_Return in Hstep as (o3 & w & o4 & Hentry & H & _).
  apply pret_Return in H as [[= <- <-] _]. simpl. eauto.
Qed.

Lemma convert_list_Return elems type_mapping out data' :
  convert_data_types (VList elems) type_mapping = (out, Return data') ->
  exists elems', data' = VList elems' /\
    Forall2 (fun e e' =>
               exists o, convert_item (fun nested => convert_data_types nested type_mapping) e
                         = (o, Return e'))
            elems elems'.
Proof.
  simpl. intros H.
  apply pbind_Return in H as (o1 & elems' & o2 & Hloop & H & _).
  apply pret_Return in H as [<- _].
  exists elems'. split; [reflexivity|]. eapply for_each_Return, Hloop.
Qed.

Lemma dict_get_Forall2 (R : value -> value -> Prop) key entries entries' v :
  Forall2 (fun kv kv' => fst kv' = fst kv /\ (fst kv = key -> R (snd kv) (snd kv')))
    entries entries' ->
  dict_get key entries = Some v ->
  exists v', dict_get key entries' = Some v' /\ R v v'.
Proof.
  induction 1 as [|[k w] [k' w'] l l' [Hk HR] _ IH]; simpl; [discriminate|].
  simpl in Hk, HR. subst k'.
  destruct (String.eqb k key) eqn:E.
  - intros [= <-]. apply String.eqb_eq in E. eauto.
  - exact IH.
Qed.

(** C1, as amended: when [convert_data_types] returns, a field whose key
    is not in the schema and whose value is neither a mapping nor a
    sequence is unchanged; a mapping or sequence under such a key is
    replaced by its own conversion with the same schema. *)
Theorem convert_data_types_frame type_mapping entries out entries' key v :
  convert_data_types (VDict entries) type_mapping = (out, Return (VDict entries')) ->
  type_mapping !! key = None ->
  dict_get key entries = Some v ->
  if is_container v
  then exists o v', convert_data_types v type_mapping = (o, Return v')
                    /\ dict_get key entries' = Some v'
  else dict_get key entries' = Some v.
Proof.
  intros Hrun Hkey Hget.
  apply convert_dict_Return in Hrun as (l & [= <-] & Hall).
  pose (R := fun w w' : value =>
               if is_container w
               then exists o, convert_data_types w type_mapping = (o, Return w')
               else w' = w).
  destruct (dict_get_Forall2 R key entries entries' v) as (v' & Hget' & HR); [|exact Hget|].
  - eapply Forall2_impl; [exact Hall|].
    intros [k w] [k' w']; simpl. intros [-> [o Hstep]]. split; [reflexivity|].
    intros ->. apply convert_entry_Return in Hstep. rewrite Hkey in Hstep.
    unfold R. destruct (is_container w); eauto.
  - unfold R in HR. destruct (is_container v).
    + destruct HR as [o HR]. eauto.
    + subst v'. exact Hget'.
Qed.

Lemma convert_data_types_frame_witness :
  dict_get "attempt"
    [ ("arn", VStr "arn:aws:omics:us-east-1:123456789012:task/7654321");
      ("details", VDict [("cpus", VInt 4)]);
      ("attempt", VInt 2) ] = Some (VInt 2).
Proof.
  exact (convert_data_types_frame TASK_MANIFEST_SCHEMA nested_task_record [] _
           "attempt" (VInt 2) eq_refl eq_refl eq_refl).
Defined.

(** C1, as stated, fails on a nested mapping: ["details"] is not a key of
    the task schema, and its value is changed. *)
Lemma convert_data_types_changes_nested :
  TASK_MANIFEST_SCHEMA !! "details" = None /\
  dict_get "details" nested_task_record = Some (VDict [("cpus", VStr "4")]) /\
  exists entries',
    convert_data_types (VDict nested_task_record) TASK_MANIFEST_SCHEMA
      = ([], Return (VDict entries')) /\
    dict_get "details" entries' = Some (VDict [("cpus", VInt 4)]) /\
    dict_get "details" entries' <> dict_get "details" nested_task_record.
Proof.
  split; [reflexivity|]. split; [reflexivity|].
  eexists. split; [vm_compute; reflexivity|]. split; [reflexivity|]. discriminate.
Qed.

(** C3: on a value that [int] rejects with [TypeError] the conversion is
    not recovered: the exception leaves [convert_data_types]. *)
Theorem convert_data_types_raises_TypeError :
  convert_data_types task_record_cpus_list TASK_MANIFEST_SCHEMA = ([], Raise TypeError).
Proof. vm_compute. reflexivity. Qed.

(** The recovery that the code does have: a text that [int] cannot read
    stays as it is, and one line is printed. *)
Lemma convert_entry_unreadable_text type_mapping recurse key s :
  type_mapping !! key = Some int ->
  int_of_str s = None ->
  convert_entry type_mapping recurse key (VStr s)
    = ([conversion_warning (VStr s) key int], Return (VStr s)).
Proof.
  intros Hkey Hs. unfold convert_entry. rewrite Hkey. simpl. rewrite Hs. reflexivity.
Qed.

(** The exceptions that do leave [convert_data_types]. *)
Lemma convert_entry_Raise type_mapping recurse key v out e :
  convert_entry type_mapping recurse key v = (out, Raise e) ->
  (type_mapping !! key = Some int /\ (e = TypeError \/ e = OverflowError))
  \/ (type_mapping !! key = None /\ is_container v = true /\ recurse v = (out, Raise e)).
Proof.
  unfold convert_entry. intros H. destruct (type_mapping !! key) as [t|].
  - destruct t.
    + destruct v; simpl in H; discriminate.
    + left. split; [reflexivity|].
      destruct v as [| | |x|s| |]; simpl in H; try discriminate.
      * destruct (float_val x); simpl in H; try discriminate.
        injection H as _ <-. auto.
      * destruct (int_of_str s); discriminate.
      * injection H as _ <-. auto.
      * injection H as _ <-. auto.
  - destruct (is_container v); [auto|discriminate].
Qed.

Lemma pbind_Raise {A B} (m : printed A) (k : A -> printed B) out e :
  pbind m k = (out, Raise e) ->
  (exists o, m = (o, Raise e))
  \/ (exists o1 a o2, m = (o1, Return a) /\ k a = (o2, Raise e)).
Proof.
  unfold pbind. destruct m as [o1 [a|e']].
  - destruct (k a) as [o2 r] eqn:Hk. intros [= _ ->]. right. eauto.
  - intros [= _ ->]. left. eauto.
Qed.

Lemma for_each_Raise {A B} (f : A -> printed B) l out e :
  for_each f l = (out, Raise e) -> exists a o, a ∈ l /\ f a = (o, Raise e).
Proof.
  revert out. induction l as [|a rest IH]; simpl; intros out H; [discriminate|].
  apply pbind_Raise in H as [[o H] | (o1 & b & o2 & _ & H)].
  - exists a, o. split; [left|exact H].
  - apply pbind_Raise in H as [[o H] | (o3 & bs & o4 & _ & H)]; [|discriminate].
    destruct (IH _ H) as (a' & o' & Hin & Ha'). exists a', o'. split; [right; exact Hin|exact Ha'].
Qed.

(** The exceptions of the conversion calls that leave
    [convert_data_types] are [TypeError] and [OverflowError]: the
    [ValueError] of [int] is recovered. *)
Lemma convert_data_types_Raise type_mapping v out e :
  convert_data_types v type_mapping = (out, Raise e) ->
  e = TypeError \/ e = OverflowError.
Proof.
  revert out.
  induction v as [| b | n | x | s | elems IH | entries IH] using value_ind;
    intros out H; try discriminate; simpl in H.
  - apply pbind_Raise in H as [[o H] | (o1 & a & o2 & _ & H)]; [|discriminate].
    apply for_each_Raise in H as (item & o' & Hin & H).
    unfold convert_item in H. destruct (is_container item); [|discriminate].
    rewrite Forall_forall in IH. exact (IH item Hin _ H).
  - apply pbind_Raise in H as [[o H] | (o1 & a & o2 & _ & H)]; [|discriminate].
    apply for_each_Raise in H as ([k w] & o' & Hin & H).
    apply pbind_Raise in H as [[o2 H] | (o1 & a & o2 & _ & H)]; [|discriminate].
    apply convert_entry_Raise in H as [[_ He] | (_ & _ & H)]; [exact He|].
    rewrite Forall_forall in IH. exact (IH (k, w) Hin _ H).
Qed.

Lemma convert_item_Return recurse item out item' :
  convert_item recurse item = (out, Return item') ->
  if is_container item then recurse item = (out, Return item') else item' = item.
Proof.
  unfold convert_item. destruct (is_container item); [trivial|].
  intros H. apply pret_Return in H as [-> _]. reflexivity.
Qed.

(** C9, as amended: when [convert_data_types] returns, every mapping it
    walks keeps its keys, in their order, and every sequence it walks
    keeps its length. The value under a key of the schema is not walked. *)
Theorem convert_data_types_walked_shape type_mapping v out v' :
  convert_data_types v type_mapping = (out, Return v') ->
  walked_shape type_mapping v' = walked_shape type_mapping v.
Proof.
  revert out v'.
  induction v as [| b | n | x | s | elems IH | entries IH] using value_ind;
    intros out v' H;
    try (apply pret_Return in H as [<- _]; reflexivity).
  - apply convert_list_Return in H as (elems' & -> & Hall). simpl. f_equal.
    induction Hall as [|e e' l l' [o Hstep] _ IHall]; [reflexivity|].
    apply Forall_cons_1 in IH as [IHe IHl]. simpl. f_equal; [|exact (IHall IHl)].
    apply convert_item_Return in Hstep. destruct (is_container e) eqn:E.
    + eapply IHe, Hstep.
    + subst e'. reflexivity.
  - apply convert_dict_Return in H as (entries' & -> & Hall). simpl. f_equal.
    induction Hall as [|[k w] [k' w'] l l' [Hk [o Hstep]] _ IHall]; [reflexivity|].
    apply Forall_cons_1 in IH as [IHw IHl]. simpl in *. subst k'.
    f_equal; [|exact (IHall IHl)]. f_equal.
    apply convert_entry_Return in Hstep.
    destruct (type_mapping !! k); [reflexivity|].
    destruct (is_container w) eqn:E.
    + eapply IHw, Hstep.
    + subst w'. reflexivity.
Qed.

Lemma convert_data_types_walked_shape_witness :
  walked_shape RUN_MANIFEST_SCHEMA
    (VDict [ ("arn", VStr "arn:aws:omics:us-east-1:123456789012:run/1234567");
             ("parameters", VStr "{'sample': 'NA12878', 'depth': 30}");
             ("tags", VList [VStr "a"; VStr "b"]) ])
  = walked_shape RUN_MANIFEST_SCHEMA run_record_nested_parameters.
Proof.
  exact (convert_data_types_walked_shape RUN_MANIFEST_SCHEMA
           run_record_nested_parameters [] _ eq_refl).
Defined.

(** C9, as stated, fails under a key of the schema: the mapping stored in
    ["parameters"] is replaced by a text, and its keys are gone. *)
Lemma convert_data_types_flattens_parameters :
  exists v',
    convert_data_types run_record_nested_parameters RUN_MANIFEST_SCHEMA = ([], Return v') /\
    v' = VDict [ ("arn", VStr "arn:aws:omics:us-east-1:123456789012:run/1234567");
                 ("parameters", VStr "{'sample': 'NA12878', 'depth': 30}");
                 ("tags", VList [VStr "a"; VStr "b"]) ] /\
    shape_of v' <> shape_of run_record_nested_parameters.
Proof.
  eexists. split; [vm_compute; reflexivity|]. split; [reflexivity|]. discriminate.
Qed.

(** X5: the keys of the record itself are kept, in their order: no field
    is added for a key of the schema that the record lacks, none is
    dropped. *)
Lemma convert_data_types_keys type_mapping entries out entries' :
  convert_data_types (VDict entries) type_mapping = (out, Return (VDict entries')) ->
  map fst entries' = map fst entries.
Proof.
  intros H. apply convert_dict_Return in H as (l & [= <-] & Hall).
  induction Hall as [|kv kv' l l' [Hk _] _ IH]; simpl; congruence.
Qed.

(** ** Properties of the classifier *)
Lemma starts_with_spec pat s :
  starts_with pat s = true <-> exists after, s = pat +:+ after.
Proof.
  revert s. induction pat as [|a pat IH]; intros s; simpl.
  - split; [eauto|reflexivity].
  - destruct s as [|b s].
    + split; [discriminate|]. intros [after H]. discriminate.
    + rewrite andb_true_iff, Ascii.eqb_eq, IH. split.
      * intros [-> [after ->]]. eauto.
      * intros [after [= -> ->]]. eauto.
Qed.

Lemma str_contains_spec pat s :
  str_contains pat s = true <-> is_substring pat s.
Proof.
  unfold is_substring. split.
  - induction s as [|c s IH]; simpl; rewrite orb_true_iff; intros [H|H].
    + apply starts_with_spec in H as [after ->]. exists "", after. reflexivity.
    + discriminate.
    + apply starts_with_spec in H as [after ->]. exists "", after. reflexivity.
    + destruct (IH H) as (before & after & ->). exists (String c before), after. reflexivity.
  - intros (before & after & ->).
    induction before as [|c before IH]; simpl.
    + assert (H : starts_with pat (pat +:+ after) = true) by (apply starts_with_spec; eauto).
      destruct (pat +:+ after); simpl; rewrite H; reflexivity.
    + rewrite IH. apply orb_true_r.
Qed.

Lemma str_contains_false pat s :
  str_contains pat s = false <-> ~ is_substring pat s.
Proof. rewrite <- str_contains_spec. destruct (str_contains pat s); split; congruence. Qed.

(** C2, as amended: [Run] exactly when the identifier contains [:run/];
    [Task] exactly when it contains [:task/] and not [:run/]; [Unknown]
    exactly when it contains neither. *)
Theorem classify_spec (arn : string) :
  (classify arn = Run <-> is_substring ":run/" arn) /\
  (classify arn = Task <-> ~ is_substring ":run/" arn /\ is_substring ":task/" arn) /\
  (classify arn = Unknown <-> ~ is_substring ":run/" arn /\ ~ is_substring ":task/" arn).
Proof.
  rewrite <- !str_contains_false, <- !str_contains_spec. unfold classify.
  destruct (str_contains ":run/" arn), (str_contains ":task/" arn);
    repeat split; intros; try discriminate; try tauto; intuition discriminate.
Qed.

(** C2, as stated, fails on an identifier with both segments: it contains
    [:task/], and the result is [Run]. *)
Lemma classify_run_before_task :
  is_substring ":task/" arn_run_and_task /\
  classify arn_run_and_task = Run /\
  classify arn_run_and_task <> Task.
Proof.
  split; [|split; [reflexivity|discriminate]].
  exists "arn:aws:omics:us-east-1:123456789012:run/1234567", "7654321". reflexivity.
Qed.

Lemma puts_app l1 l2 : puts (l1 ++ l2) = puts l1 ++ puts l2.
Proof.
  induction l1 as [|c l1 IH]; simpl; [reflexivity|].
  destruct c; simpl; rewrite IH; reflexivity.
Qed.

Lemma store_after_cons bucket key body writes store :
  store_after ((bucket, key, body) :: writes) store
  = store_after writes (<[(bucket, key) := body]> store).
Proof. reflexivity. Qed.

Lemma puts_cons_PutObject bucket key body l :
  puts (PutObject bucket key body :: l) = (bucket, key, body) :: puts l.
Proof. reflexivity. Qed.

Lemma tasks_key_not_runs_key prefix task_id run_id :
  destination_key prefix "tasks" task_id <> prefix +:+ "/runs/" +:+ run_id +:+ ".json".
Proof.
  unfold destination_key. induction prefix as [|c prefix IH]; simpl.
  - discriminate.
  - intros [= H]. exact (IH H).
Qed.

(** ** Properties of the handler *)
Section PipelineProperties.
Context {W : Type}.
Variable describe_log_streams :
  session -> describe_params -> W -> py_result describe_response * W.
Variable get_log_events :
  session -> events_params -> W -> py_result events_response * W.
Variable put_object : string -> string -> string -> W -> py_result unit * W.
Variable json_loads : string -> py_result value.
Variable json_dumps : value -> string.

(** [find_log_streams_by_prefix] only lists streams: it writes nothing
    and prints nothing. *)
Lemma describe_loop_puts fuel ses limit params all_streams next_token
    (st : state) r st' :
  describe_loop describe_log_streams fuel ses limit params all_streams next_token st
    = (r, st') ->
  puts (calls st') = puts (calls st) /\ stdout st' = stdout st.
Proof.
  revert params all_streams next_token st.
  induction fuel as [|fuel IH]; intros params all_streams next_token st; simpl.
  - intros [= <- <-]. auto.
  - unfold bind, client_call.
    destruct (describe_log_streams _ _ _) as [[response|e] w]; simpl.
    + destruct (_ || _).
      * intros [= <- <-]. simpl. rewrite puts_app, app_nil_r. auto.
      * intros H. apply IH in H as [-> ->]. simpl. rewrite puts_app, app_nil_r. auto.
    + intros [= <- <-]. simpl. rewrite puts_app, app_nil_r. auto.
Qed.

Lemma find_log_streams_by_prefix_puts fuel log_group_name prefix region limit order_by
    descending profile_name (st : state) r st' :
  find_log_streams_by_prefix describe_log_streams fuel log_group_name prefix region limit
    order_by descending profile_name st = (r, st') ->
  puts (calls st') = puts (calls st) /\ stdout st' = stdout st.
Proof.
  unfold find_log_streams_by_prefix, bind.
  destruct (describe_loop _ _ _ _ _ _ _ _) as [[streams|e|] st1] eqn:Hloop;
    intros [= <- <-]; eapply describe_loop_puts, Hloop.
Qed.

(** C6: with the configuration in place (an ARN with a region, the
    bucket variable set), an event that has no [detail], or whose
    [detail] is a mapping without [runId], gets the result with
    [statusCode] 400, and no request is made to AWS: the state is the
    one the handler started in. *)
Theorem lambda_handler_missing_runId fuel environ entries context region bucket
    (st : state) :
  split_on ":" (invoked_function_arn context) !! 3%nat = Some region ->
  environ !! "DATA_LAKE_BUCKET" = Some bucket ->
  (dict_get "detail" entries = None
   \/ exists detail, dict_get "detail" entries = Some (VDict detail)
                     /\ dict_get "runId" detail = None) ->
  exists response,
    lambda_handler describe_log_streams get_log_events put_object json_loads json_dumps
      fuel environ (VDict entries) context st = (Done response, st)
    /\ getitem response "statusCode" = Return (VInt 400).
Proof.
  intros Harn Henv Hdetail.
  exists (status_response 400 (json_dumps (VStr "Missing required event detail"))).
  split; [|reflexivity].
  unfold lambda_handler, bind. rewrite Harn, Henv. simpl.
  destruct Hdetail as [-> | (detail & -> & Hrun)]; [reflexivity|].
  simpl. rewrite Hrun. reflexivity.
Qed.

(** C7, as amended: when the event has a [runId] and the stream lookup
    answers with an empty list, the handler ends with an uncaught
    [IndexError]: it returns no result, and no object has been written. *)
Theorem lambda_handler_no_stream fuel environ event context region bucket detail run_id
    (st st1 : state) :
  split_on ":" (invoked_function_arn context) !! 3%nat = Some region ->
  environ !! "DATA_LAKE_BUCKET" = Some bucket ->
  getitem event "detail" = Return detail ->
  getitem detail "runId" = Return run_id ->
  find_log_streams_by_prefix describe_log_streams fuel "/aws/omics/WorkflowLog"
    ("manifest/run/" +:+ py_str run_id) region (Some 10) "LogStreamName" true None st
    = (Done [], st1) ->
  lambda_handler describe_log_streams get_log_events put_object json_loads json_dumps
    fuel environ event context st = (Failed IndexError, st1)
  /\ puts (calls st1) = puts (calls st).
Proof.
  intros Harn Henv Hdetail Hrun Hfind.
  split; [|eapply find_log_streams_by_prefix_puts, Hfind].
  unfold lambda_handler, bind at 1 2. rewrite Harn, Henv. simpl.
  rewrite Hdetail, Hrun. unfold bind at 1. rewrite Hfind. reflexivity.
Qed.

Lemma lift_Done {A} (r : py_result A) (st : @state W) a st' :
  lift r st = (Done a, st') -> r = Return a /\ st' = st.
Proof. destruct r; simpl; intros [= <- <-] || intros [=]; auto. Qed.

Lemma lift_printed_Done {A} (p : printed A) (st : @state W) a st' :
  lift_printed p st = (Done a, st') ->
  snd p = Return a /\ calls st' = calls st /\ world st' = world st.
Proof.
  unfold lift_printed. destruct (snd p); intros [= <- <-] || intros [=]; auto.
Qed.

Lemma write_json_to_s3_Done bucket key doc (st : @state W) u st' :
  write_json_to_s3 put_object json_dumps bucket key doc st = (Done u, st') ->
  calls st' = calls st ++ [PutObject bucket key (json_dumps doc)].
Proof.
  unfold write_json_to_s3, client_call.
  destruct (put_object _ _ _ _) as [[[]|e] w]; intros [= <- <-] || intros [=]; reflexivity.
Qed.

Lemma bind_Done {A B} (m : M A) (k : A -> M B) (st : @state W) b st' :
  bind m k st = (Done b, st') ->
  exists a st1, m st = (Done a, st1) /\ k a st1 = (Done b, st').
Proof.
  unfold bind. destruct (m st) as [[a|e|] st1]; intros H; try discriminate. eauto.
Qed.

(** What a successful round of the loop over the events has written. *)
Lemma store_manifest_Done bucket prefix key_run event (st : @state W) u st' :
  store_manifest put_object json_loads json_dumps bucket prefix key_run event st
    = (Done u, st') ->
  exists key body,
    calls st' = calls st ++ [PutObject bucket key body]
    /\ ((key = key_run /\ run_body json_loads json_dumps event = Some body)
        \/ (exists task_id, task_identifier json_loads event = Some task_id
                            /\ key = destination_key prefix "tasks" task_id
                            /\ run_body json_loads json_dumps event = None
                            /\ manifest_body json_loads json_dumps TASK_MANIFEST_SCHEMA
                                 event = Some body)).
Proof.
  unfold store_manifest, run_body, task_identifier, manifest_body. intros H.
  apply bind_Done in H as (event_message & st1 & H1 & H).
  apply lift_Done in H1 as [-> ->].
  apply bind_Done in H as (arn & st1 & H1 & H).
  apply lift_Done in H1 as [-> ->].
  apply bind_Done in H as (is_run & st1 & H1 & H).
  apply lift_Done in H1 as [Hrun ->]. rewrite Hrun.
  destruct is_run.
  - apply bind_Done in H as (doc & st1 & H1 & H).
    apply lift_printed_Done in H1 as (Hdoc & Hcalls & _).
    apply write_json_to_s3_Done in H. rewrite Hcalls in H.
    exists key_run, (json_dumps doc). split; [exact H|]. left. split; [reflexivity|].
    destruct (convert_data_types event_message RUN_MANIFEST_SCHEMA) as [out r].
    simpl in Hdoc. rewrite Hdoc. reflexivity.
  - apply bind_Done in H as (is_task & st1 & H1 & H).
    apply lift_Done in H1 as [Htask ->].
    destruct is_task; [|discriminate].
    apply bind_Done in H as (task_id & st1 & H1 & H).
    destruct arn as [| | | |s| |]; try discriminate.
    injection H1 as <- <-.
    apply bind_Done in H as (doc & st1 & H1 & H).
    apply lift_printed_Done in H1 as (Hdoc & Hcalls & _).
    apply write_json_to_s3_Done in H. rewrite Hcalls in H.
    simpl in Hrun, Htask. injection Hrun as Hrun. injection Htask as Htask.
    rewrite Hrun, Htask.
    eexists _, (json_dumps doc). split; [exact H|]. right.
    eexists. split; [reflexivity|]. split; [reflexivity|]. split; [reflexivity|].
    destruct (convert_data_types event_message TASK_MANIFEST_SCHEMA) as [out r].
    simpl in Hdoc. rewrite Hdoc. reflexivity.
Qed.

(** [store_manifest] on a record whose [arn] is a text follows
    [classify]. *)
Lemma store_manifest_classify bucket prefix key_run event event_message arn
    (st : @state W) :
  json_loads (message event) = Return event_message ->
  getitem event_message "arn" = Return (VStr arn) ->
  store_manifest put_object json_loads json_dumps bucket prefix key_run event st
  = match classify arn with
    | Run =>
        bind (lift_printed (convert_data_types event_message RUN_MANIFEST_SCHEMA))
          (write_json_to_s3 put_object json_dumps bucket key_run) st
    | Task =>
        bind (lift_printed (convert_data_types event_message TASK_MANIFEST_SCHEMA))
          (write_json_to_s3 put_object json_dumps bucket
             (destination_key prefix "tasks" (List.last (split_on "/" arn) ""))) st
    | Unknown => (Failed RuntimeError, st)
    end.
Proof.
  intros Hloads Harn. unfold store_manifest, classify, bind at 1 2 3.
  rewrite Hloads. simpl. rewrite Harn. simpl.
  destruct (str_contains ":run/" arn); [reflexivity|].
  unfold bind at 1. simpl.
  destruct (str_contains ":task/" arn); reflexivity.
Qed.

(** Once the stream is found and its events are read, the handler is the
    loop of [store_manifest] over the events, with the run key made from
    the prefix and the [runId] of the inbound event. *)
Lemma lambda_handler_stores fuel environ event context region bucket detail run_id
    stream more events (st st1 st2 : @state W) :
  split_on ":" (invoked_function_arn context) !! 3%nat = Some region ->
  environ !! "DATA_LAKE_BUCKET" = Some bucket ->
  getitem event "detail" = Return detail ->
  getitem detail "runId" = Return run_id ->
  find_log_streams_by_prefix describe_log_streams fuel "/aws/omics/WorkflowLog"
    ("manifest/run/" +:+ py_str run_id) region (Some 10) "LogStreamName" true None st
    = (Done (stream :: more), st1) ->
  get_log_events_by_stream_prefix describe_log_streams get_log_events fuel
    "/aws/omics/WorkflowLog" (logStreamName stream) region None None 1 None st1
    = (Done events, st2) ->
  lambda_handler describe_log_streams get_log_events put_object json_loads json_dumps
    fuel environ event context st
  = bind
      (for_each_M
         (fun '(stream_name, stream_events) =>
            for_each_M
              (store_manifest put_object json_loads json_dumps bucket
                 (default "" (environ !! "S3_PREFIX"))
                 (default "" (environ !! "S3_PREFIX") +:+ "/runs/" +:+ py_str run_id
                  +:+ ".json"))
              stream_events)
         events)
      (fun _ => ret (status_response 200 "Manifest ETL complete")) st2.
Proof.
  intros Harn Henv Hdetail Hrun Hfind Hevents.
  unfold lambda_handler, bind at 1 2. rewrite Harn, Henv. simpl.
  rewrite Hdetail, Hrun. unfold bind at 1. rewrite Hfind.
  unfold bind at 1. simpl. unfold bind at 1. rewrite Hevents. reflexivity.
Qed.

(** One round of the loop: the key that [store_manifest] writes to is
    [<prefix>/<namespace>/<identifier>.json], with [runs] and the run
    identifier it was given for a run-level record, [tasks] and the
    task identifier of the record for a task-level one; two rounds on the
    same record, from whatever states of the world, write the same key
    with the same content. *)
Lemma store_manifest_destination_key bucket prefix run_id event
    (st1 st1' st2 st2' : @state W) u1 u2 :
  store_manifest put_object json_loads json_dumps bucket prefix
    (prefix +:+ "/runs/" +:+ run_id +:+ ".json") event st1 = (Done u1, st1') ->
  store_manifest put_object json_loads json_dumps bucket prefix
    (prefix +:+ "/runs/" +:+ run_id +:+ ".json") event st2 = (Done u2, st2') ->
  exists namespace identifier body,
    ((namespace = "runs" /\ identifier = run_id /\ run_body json_loads json_dumps event = Some body)
     \/ (namespace = "tasks" /\ task_identifier json_loads event = Some identifier
         /\ manifest_body json_loads json_dumps TASK_MANIFEST_SCHEMA event = Some body))
    /\ calls st1'
       = calls st1 ++ [PutObject bucket (destination_key prefix namespace identifier) body]
    /\ calls st2'
       = calls st2 ++ [PutObject bucket (destination_key prefix namespace identifier) body].
Proof.
  intros H1 H2.
  apply store_manifest_Done in H1
    as (key1 & body1 & Hc1 & [[-> Hr1] | (id1 & Ht1 & -> & Hr1 & Hb1)]);
  apply store_manifest_Done in H2
    as (key2 & body2 & Hc2 & [[-> Hr2] | (id2 & Ht2 & -> & Hr2 & Hb2)]);
    try congruence.
  - assert (body2 = body1) as -> by congruence.
    exists "runs", run_id, body1. split; [left; auto|]. split; assumption.
  - assert (id2 = id1) as -> by congruence.
    assert (body2 = body1) as -> by congruence.
    exists "tasks", id1, body1. split; [right; auto|]. split; assumption.
Qed.

(** The loop over the events, with the run key it was given: every
    run-level record goes to that key, whatever the record's own [arn]
    says, and every task-level record to a key under [tasks]; when the
    loop ends normally the object at the run key holds the last run-level
    record, or is untouched when there was none. *)
Lemma run_manifests_share_one_key bucket prefix run_id events (st st' : @state W) u store :
  for_each_M
    (store_manifest put_object json_loads json_dumps bucket prefix
       (prefix +:+ "/runs/" +:+ run_id +:+ ".json"))
    events st = (Done u, st') ->
  exists written,
    calls st' = calls st ++ written
    /\ Forall2
         (fun event c =>
            exists key body,
              c = PutObject bucket key body
              /\ ((run_body json_loads json_dumps event = Some body
                   /\ key = destination_key prefix "runs" run_id)
                  \/ (run_body json_loads json_dumps event = None
                      /\ exists task_id, task_identifier json_loads event = Some task_id
                                         /\ key = destination_key prefix "tasks" task_id)))
         events written
    /\ store_after (puts written) store !! (bucket, destination_key prefix "runs" run_id)
       = match last (omap (run_body json_loads json_dumps) events) with
         | Some body => Some body
         | None => store !! (bucket, destination_key prefix "runs" run_id)
         end.
Proof.
  revert st store. induction events as [|event events IH]; intros st store H; simpl in H.
  - injection H as _ <-. exists []. rewrite app_nil_r. repeat split. constructor.
  - apply bind_Done in H as (u' & st1 & Hev & H).
    apply store_manifest_Done in Hev as (key & body & Hcalls & Hkind).
    destruct (IH st1 (<[(bucket, key) := body]> store) H) as (written & Hc & Hall & Hstore).
    exists (PutObject bucket key body :: written).
    split; [rewrite Hc, Hcalls, <- app_assoc; reflexivity|].
    split.
    + constructor; [|exact Hall]. exists key, body. split; [reflexivity|].
      destruct Hkind as [[-> Hr] | (id & Ht & -> & Hr & _)]; [left|right]; eauto.
    + rewrite puts_cons_PutObject, store_after_cons, Hstore.
      assert (Homap : omap (run_body json_loads json_dumps) (event :: events)
                      = match run_body json_loads json_dumps event with
                        | Some b => b :: omap (run_body json_loads json_dumps) events
                        | None => omap (run_body json_loads json_dumps) events
                        end) by reflexivity.
      rewrite Homap.
      destruct Hkind as [[-> Hr] | (id & Ht & -> & Hr & _)]; rewrite Hr.
      * change (prefix +:+ "/runs/" +:+ run_id +:+ ".json")
          with (destination_key prefix "runs" run_id).
        rewrite lookup_insert_eq.
        destruct (omap (run_body json_loads json_dumps) events) as [|b bs]; [reflexivity|].
        rewrite last_cons_cons. destruct (last (b :: bs)) eqn:E; [reflexivity|].
        apply last_None in E. discriminate.
      * rewrite lookup_insert_ne; [reflexivity|].
        intros [= E]. exact (tasks_key_not_runs_key _ _ _ E).
Qed.

End PipelineProperties.

Lemma pages_events_cons script from count :
  pages_events script from (S count)
  = default [] (er_events (script from)) ++ pages_events script (S from) count.
Proof. reflexivity. Qed.

Lemma events_loop_scripted ses script d :
  forall k fuel params stream_events next_token (st : @state nat),
    world st = k ->
    (if truthy_str next_token then next_token else ep_nextToken params) = sent_token script k ->
    (forall j, (k <= j < k + d)%nat -> events_stop script j = false) ->
    events_stop script (k + d) = true ->
    (d < fuel)%nat ->
    exists st',
      events_loop (scripted script) fuel ses params stream_events next_token st
        = (Done (stream_events ++ pages_events script k (S d)), st')
      /\ world st' = S (k + d)
      /\ length (calls st') = (length (calls st) + S d)%nat
      /\ puts (calls st') = puts (calls st).
Proof.
  induction d as [|d IH]; intros k fuel params stream_events next_token st Hw Hsent Hgo Hstop Hfuel;
    (destruct fuel as [|fuel]; [lia|]); simpl; unfold bind, client_call, scripted;
    rewrite Hw; simpl.
  - rewrite Nat.add_0_r in Hstop. unfold events_stop in Hstop.
    assert (Hp : ep_nextToken
                   (if truthy_str next_token
                    then EventsParams (ep_logGroupName params) (ep_logStreamName params)
                           (ep_startFromHead params) (ep_startTime params)
                           (ep_endTime params) next_token
                    else params) = sent_token script k)
      by (rewrite <- Hsent; destruct (truthy_str next_token); reflexivity).
    rewrite Hp, Hstop. eexists. split; [|split; [|split]].
    + unfold ret, pages_events. simpl. rewrite app_nil_r. reflexivity.
    + simpl. lia.
    + simpl. rewrite length_app. simpl. lia.
    + simpl. rewrite puts_app, app_nil_r. reflexivity.
  - assert (Hk : events_stop script k = false) by (apply Hgo; lia).
    unfold events_stop in Hk.
    assert (Hp : ep_nextToken
                   (if truthy_str next_token
                    then EventsParams (ep_logGroupName params) (ep_logStreamName params)
                           (ep_startFromHead params) (ep_startTime params)
                           (ep_endTime params) next_token
                    else params) = sent_token script k)
      by (rewrite <- Hsent; destruct (truthy_str next_token); reflexivity).
    rewrite Hp, Hk.
    apply orb_false_iff in Hk as [Htruthy _]. apply negb_false_iff in Htruthy.
    edestruct (IH (S k) fuel) as (st' & Hrun & Hw' & Hlen & Hputs);
      [| | | | | rewrite Hrun; exists st'; split; [|split; [|split]]].
    + reflexivity.
    + rewrite Htruthy. reflexivity.
    + intros j Hj. apply Hgo. lia.
    + replace (S k + d)%nat with (k + S d)%nat by lia. exact Hstop.
    + lia.
    + rewrite <- app_assoc, (pages_events_cons script k (S d)). reflexivity.
    + rewrite Hw'. lia.
    + rewrite Hlen. simpl. rewrite length_app. simpl. lia.
    + rewrite Hputs. simpl. rewrite puts_app, app_nil_r. reflexivity.
Qed.

(** C4, as amended: the events loop ends at the first page that carries no
    token (or an empty one) or that carries the token of the request it
    answers; it has then made one request per page up to that one and
    returns their events in order. *)
Theorem events_loop_stops_at_first_exit ses params script k fuel (st : @state nat) :
  ep_nextToken params = None ->
  world st = O ->
  (forall j, (j < k)%nat -> events_stop script j = false) ->
  events_stop script k = true ->
  (k < fuel)%nat ->
  exists st',
    events_loop (scripted script) fuel ses params [] None st
      = (Done (pages_events script 0 (S k)), st')
    /\ world st' = S k
    /\ length (calls st') = (length (calls st) + S k)%nat.
Proof.
  intros Hparams Hw Hgo Hstop Hfuel.
  destruct (events_loop_scripted ses script k 0%nat fuel params [] None st)
    as (st' & Hrun & Hw' & Hlen & _); auto.
  - intros j Hj. apply Hgo. lia.
  - exists st'. auto.
Qed.

Lemma events_loop_stops_at_first_exit_witness :
  exists st',
    events_loop (scripted stable_token_script) 5
      handler_session run_stream_params [] None (State 0%nat [] [])
    = (Done [LogEvent 0 "{}"; LogEvent 1 "{}"], st')
    /\ world st' = 2%nat
    /\ length (calls st') = 2%nat.
Proof.
  refine (events_loop_stops_at_first_exit handler_session run_stream_params
            stable_token_script 1 5 (State 0%nat [] []) eq_refl eq_refl _ eq_refl _).
  - intros j Hj. assert (j = 0%nat) as -> by lia. reflexivity.
  - lia.
Defined.

(** X13: a log service that repeats one token for ever is asked twice: the
    second page is the first whose token is the one just sent. *)
Lemma events_loop_stable_token ses params script token fuel (st : @state nat) :
  ep_nextToken params = None ->
  world st = O ->
  token <> "" ->
  (forall j, er_nextForwardToken (script j) = Some token) ->
  (1 < fuel)%nat ->
  exists st',
    events_loop (scripted script) fuel ses params [] None st
      = (Done (pages_events script 0 2), st')
    /\ world st' = 2%nat.
Proof.
  intros Hparams Hw Htoken Hscript Hfuel.
  destruct (events_loop_scripted ses script 1 0%nat fuel params [] None st)
    as (st' & Hrun & Hw' & _); auto.
  - intros j Hj. assert (j = 0%nat) as -> by lia.
    unfold events_stop. rewrite Hscript. simpl.
    destruct token; [congruence|reflexivity].
  - unfold events_stop. simpl. rewrite !Hscript. simpl.
    rewrite String.eqb_refl. apply orb_true_r.
  - eauto.
Qed.

(** When no page passes the exit test the loop uses up any bound. *)
Lemma events_loop_never_stops ses script :
  (forall j, events_stop script j = false) ->
  forall fuel params stream_events next_token (st : @state nat),
    (if truthy_str next_token then next_token else ep_nextToken params)
      = sent_token script (world st) ->
    fst (events_loop (scripted script) fuel ses params stream_events next_token st) = Timeout.
Proof.
  intros Hgo. induction fuel as [|fuel IH]; intros params stream_events next_token st Hsent;
    [reflexivity|].
  simpl. unfold bind, client_call, scripted. simpl.
  assert (Hp : ep_nextToken
                 (if truthy_str next_token
                  then EventsParams (ep_logGroupName params) (ep_logStreamName params)
                         (ep_startFromHead params) (ep_startTime params)
                         (ep_endTime params) next_token
                  else params) = sent_token script (world st))
    by (rewrite <- Hsent; destruct (truthy_str next_token); reflexivity).
  pose proof (Hgo (world st)) as Hk. unfold events_stop in Hk.
  rewrite Hp, Hk.
  apply orb_false_iff in Hk as [Htruthy _]. apply negb_false_iff in Htruthy.
  apply IH. simpl. rewrite Htruthy. reflexivity.
Qed.

(** C4, as stated, fails for a log service whose token always differs from
    the one just sent: no bound on the rounds lets the loop return. *)
Lemma events_loop_alternating_tokens :
  ~ exists fuel events st',
      events_loop (scripted alternating_token_script) fuel
        handler_session run_stream_params [] None (State 0%nat [] [])
      = (Done events, st').
Proof.
  intros (fuel & events & st' & H).
  assert (Hgo : forall j, events_stop alternating_token_script j = false).
  { intros [|j]; [reflexivity|]. unfold events_stop. simpl.
    destruct (even_page j); reflexivity. }
  pose proof (events_loop_never_stops handler_session alternating_token_script
                Hgo fuel run_stream_params [] None (State 0%nat [] []) eq_refl) as Hn.
  rewrite H in Hn. discriminate.
Qed.

Lemma pages_streams_snoc script count :
  pages_streams script 0 (S count)
  = pages_streams script 0 count ++ default [] (dr_logStreams (script count)).
Proof.
  unfold pages_streams. rewrite seq_S, flat_map_app. simpl. rewrite app_nil_r. reflexivity.
Qed.

Lemma describe_loop_scripted ses limit script d :
  forall k fuel params next_token (st : @state nat),
    world st = k ->
    (forall j, (k <= j < k + d)%nat -> describe_stop limit script j = false) ->
    describe_stop limit script (k + d) = true ->
    (d < fuel)%nat ->
    exists st',
      describe_loop (scripted script) fuel ses limit params (pages_streams script 0 k)
        next_token st
        = (Done (pages_streams script 0 (S (k + d))), st')
      /\ world st' = S (k + d).
Proof.
  induction d as [|d IH]; intros k fuel params next_token st Hw Hgo Hstop Hfuel;
    (destruct fuel as [|fuel]; [lia|]); simpl; unfold bind, client_call, scripted;
    rewrite Hw; simpl; rewrite <- pages_streams_snoc.
  - rewrite Nat.add_0_r in *. unfold describe_stop in Hstop. rewrite Hstop.
    eexists. split; reflexivity.
  - assert (Hk : describe_stop limit script k = false) by (apply Hgo; lia).
    unfold describe_stop in Hk. rewrite Hk.
    edestruct (IH (S k) fuel) as (st' & Hrun & Hw');
      [| | | | rewrite Hrun; exists st'; split].
    + reflexivity.
    + intros j Hj. apply Hgo. lia.
    + replace (S k + d)%nat with (k + S d)%nat by lia. exact Hstop.
    + lia.
    + replace (S k + d)%nat with (k + S d)%nat by lia. reflexivity.
    + rewrite Hw'. lia.
Qed.

(** C8, as amended: against a log service whose page [k] is the first to
    pass the exit test (no token, or the limit reached),
    [find_log_streams_by_prefix] asks for the pages up to [k] and returns;
    without a limit (or with the limit 0) the result is the streams of
    these pages in order, with a positive limit it is their first [limit]
    streams. *)
Theorem find_log_streams_by_prefix_scripted script limit k fuel log_group_name prefix region
    order_by descending profile_name (st : @state nat) :
  world st = O ->
  (forall j, (j < k)%nat -> describe_stop limit script j = false) ->
  describe_stop limit script k = true ->
  (k < fuel)%nat ->
  exists streams st',
    find_log_streams_by_prefix (scripted script) fuel log_group_name prefix region limit
      order_by descending profile_name st = (Done streams, st')
    /\ world st' = S k
    /\ (truthy_int limit = false -> streams = pages_streams script 0 (S k))
    /\ (forall n, limit = Some n -> 0 < n ->
        streams = take (Z.to_nat n) (pages_streams script 0 (S k))
        /\ Z.of_nat (length streams) <= n).
Proof.
  intros Hw Hgo Hstop Hfuel. unfold find_log_streams_by_prefix, bind.
  edestruct (describe_loop_scripted (make_session profile_name region) limit script k 0%nat fuel)
    as (st' & Hrun & Hw'); [exact Hw| |exact Hstop|exact Hfuel|].
  - intros j Hj. apply Hgo. lia.
  - change (pages_streams script 0 0) with (@nil log_stream) in Hrun.
    rewrite Hrun. unfold ret. eexists _, st'. split; [reflexivity|]. split; [exact Hw'|]. split.
    + intros ->. reflexivity.
    + intros n -> Hn.
      assert (Ht : truthy_int (Some n) = true) by (destruct n; [lia|reflexivity|lia]).
      rewrite Ht. cbn [andb]. change (default 0 (Some n)) with n.
      change (0 + k)%nat with k.
      set (all := pages_streams script 0 (S k)).
      assert (Hall : (if n <? Z.of_nat (length all) then slice_to n all else all)
                     = take (Z.to_nat n) all).
      { destruct (Z.ltb_spec n (Z.of_nat (length all))).
        - unfold slice_to. destruct (Z.leb_spec 0 n); [reflexivity|lia].
        - symmetry. apply take_ge. lia. }
      rewrite Hall. split; [reflexivity|]. rewrite length_take. lia.
Qed.

Lemma find_log_streams_by_prefix_scripted_witness :
  exists streams st',
    find_log_streams_by_prefix (scripted two_streams_script) 5 "/aws/omics/WorkflowLog"
      "manifest/run/1234567" "us-east-1" (Some 3) "LogStreamName" true None
      (State 0%nat [] []) = (Done streams, st')
    /\ world st' = 2%nat
    /\ (truthy_int (Some 3) = false -> streams = pages_streams two_streams_script 0 2)
    /\ (forall n, Some 3 = Some n -> 0 < n ->
        streams = take (Z.to_nat n) (pages_streams two_streams_script 0 2)
        /\ Z.of_nat (length streams) <= n).
Proof.
  refine (find_log_streams_by_prefix_scripted two_streams_script (Some 3) 1 5
            "/aws/omics/WorkflowLog" "manifest/run/1234567" "us-east-1" "LogStreamName"
            true None (State 0%nat [] []) eq_refl _ eq_refl _).
  - intros j Hj. assert (j = 0%nat) as -> by lia. reflexivity.
  - lia.
Defined.

(** When no page passes the exit test the streams loop uses up any bound. *)
Lemma describe_loop_never_stops ses limit script :
  (forall j, describe_stop limit script j = false) ->
  forall fuel params next_token (st : @state nat),
    fst (describe_loop (scripted script) fuel ses limit params
           (pages_streams script 0 (world st)) next_token st) = Timeout.
Proof.
  intros Hgo. induction fuel as [|fuel IH]; intros params next_token st; [reflexivity|].
  simpl. unfold bind, client_call, scripted. simpl. rewrite <- pages_streams_snoc.
  pose proof (Hgo (world st)) as Hk. unfold describe_stop in Hk. rewrite Hk.
  exact (IH _ _ (State (S (world st)) _ _)).
Qed.

(** C8, as stated, fails for a log service that keeps handing out tokens
    with empty pages: with the limit 10 given, no bound on the rounds lets
    [find_log_streams_by_prefix] return. *)
Lemma find_log_streams_by_prefix_endless :
  ~ exists fuel streams st',
      find_log_streams_by_prefix (scripted endless_empty_script) fuel
        "/aws/omics/WorkflowLog" "manifest/run/1234567" "us-east-1" (Some 10)
        "LogStreamName" true None (State 0%nat [] [])
      = (Done streams, st').
Proof.
  intros (fuel & streams & st' & H).
  unfold find_log_streams_by_prefix, bind in H.
  assert (Hempty : forall n, pages_streams endless_empty_script 0 n = []).
  { induction n as [|n IHn]; [reflexivity|]. rewrite pages_streams_snoc, IHn. reflexivity. }
  assert (Hgo : forall j, describe_stop (Some 10) endless_empty_script j = false).
  { intros j. unfold describe_stop. rewrite Hempty. reflexivity. }
  pose proof (describe_loop_never_stops (make_session None "us-east-1") (Some 10)
                endless_empty_script Hgo fuel
                (DescribeParams "/aws/omics/WorkflowLog" "manifest/run/1234567"
                   "LogStreamName" true (Some 10) None)
                None (State 0%nat [] [])) as Hn.
  change (pages_streams endless_empty_script 0 (world (State 0%nat [] [])))
    with (@nil log_stream) in Hn.
  simpl in H.
  destruct (describe_loop _ _ _ _ _ _ _ _) as [[all|e|] st1]; simpl in Hn; discriminate.
Qed.

(** The limit 0 counts as no limit: every stream is returned. *)
Lemma find_log_streams_by_prefix_limit_0 :
  find_log_streams_by_prefix
    (scripted (fun _ => DescribeResponse
                          (Some [LogStream "manifest/run/1234567/a" None;
                                 LogStream "manifest/run/1234567/b" None]) None))
    5 "/aws/omics/WorkflowLog" "manifest/run/1234567" "us-east-1" (Some 0)
    "LogStreamName" true None (State 0%nat [] [])
  = (Done [LogStream "manifest/run/1234567/a" None; LogStream "manifest/run/1234567/b" None],
     State 1%nat
       [DescribeLogStreams (Session None "us-east-1")
          (DescribeParams "/aws/omics/WorkflowLog" "manifest/run/1234567" "LogStreamName"
             true None None)]
       []).
Proof. reflexivity. Qed.

Lemma lambda_handler_missing_runId_witness :
  exists response,
    lambda_handler example_streams example_events example_put example_loads example_dumps
      5 example_environ (VDict event_without_runId) example_context start
    = (Done response, start)
    /\ getitem response "statusCode" = Return (VInt 400).
Proof.
  refine (lambda_handler_missing_runId example_streams example_events example_put
            example_loads example_dumps 5 example_environ event_without_runId
            example_context "us-east-1" "data-lake" start eq_refl _ _).
  - vm_compute. reflexivity.
  - right. exists [("status", VStr "COMPLETED")]. split; reflexivity.
Defined.

Lemma lambda_handler_no_stream_witness :
  lambda_handler no_streams example_events example_put example_loads example_dumps
    5 example_environ run_event example_context start
  = (Failed IndexError,
     State 1%nat
       [DescribeLogStreams (Session None "us-east-1")
          (DescribeParams "/aws/omics/WorkflowLog" "manifest/run/1234567" "LogStreamName"
             true (Some 10) None)]
       [])
  /\ puts
       [DescribeLogStreams (Session None "us-east-1")
          (DescribeParams "/aws/omics/WorkflowLog" "manifest/run/1234567" "LogStreamName"
             true (Some 10) None)]
     = puts [].
Proof.
  refine (lambda_handler_no_stream no_streams example_events example_put example_loads
            example_dumps 5 example_environ run_event example_context "us-east-1"
            "data-lake" (VDict [("runId", VStr "1234567"); ("status", VStr "COMPLETED")])
            (VStr "1234567") start _ eq_refl _ eq_refl eq_refl eq_refl).
  vm_compute. reflexivity.
Defined.

(** C7, as stated, fails: with a [runId] and no stream the handler does
    not return a result with [statusCode] 500, it does not return. *)
Lemma lambda_handler_no_stream_raises :
  fst (lambda_handler no_streams example_events example_put example_loads example_dumps
         5 example_environ run_event example_context start)
  = Failed IndexError
  /\ ~ exists response st',
         lambda_handler no_streams example_events example_put example_loads example_dumps
           5 example_environ run_event example_context start = (Done response, st').
Proof.
  assert (H : lambda_handler no_streams example_events example_put example_loads
                example_dumps 5 example_environ run_event example_context start
              = (Failed IndexError,
                 State 1%nat
                   [DescribeLogStreams (Session None "us-east-1")
                      (DescribeParams "/aws/omics/WorkflowLog" "manifest/run/1234567"
                         "LogStreamName" true (Some 10) None)]
                   []))
    by (vm_compute; reflexivity).
  rewrite H. split; [reflexivity|]. intros (response & st' & [=]).
Qed.

Lemma store_manifest_destination_key_example :
  exists namespace identifier body,
    ((namespace = "runs" /\ identifier = "1234567"
      /\ run_body example_loads example_dumps (LogEvent 2 "task manifest") = Some body)
     \/ (namespace = "tasks"
         /\ task_identifier example_loads (LogEvent 2 "task manifest") = Some identifier
         /\ manifest_body example_loads example_dumps TASK_MANIFEST_SCHEMA
              (LogEvent 2 "task manifest") = Some body))
    /\ calls (State 1%nat
                [PutObject "data-lake" "workflow_manifest/tasks/7654321.json"
                   (example_dumps
                      (VDict [ ("arn", VStr "arn:aws:omics:us-east-1:123456789012:task/7654321");
                               ("cpus", VInt 4);
                               ("memory", VInt 8);
                               ("run", VStr "arn:aws:omics:us-east-1:123456789012:run/1234567") ]))]
                [])
       = calls start
         ++ [PutObject "data-lake" (destination_key "workflow_manifest" namespace identifier) body]
    /\ calls (State 8%nat
                [PutObject "data-lake" "workflow_manifest/tasks/7654321.json"
                   (example_dumps
                      (VDict [ ("arn", VStr "arn:aws:omics:us-east-1:123456789012:task/7654321");
                               ("cpus", VInt 4);
                               ("memory", VInt 8);
                               ("run", VStr "arn:aws:omics:us-east-1:123456789012:run/1234567") ]))]
                ["later"])
       = calls (State 7%nat [] ["later"])
         ++ [PutObject "data-lake" (destination_key "workflow_manifest" namespace identifier) body].
Proof.
  exact (store_manifest_destination_key example_put example_loads example_dumps
           "data-lake" "workflow_manifest" "1234567" (LogEvent 2 "task manifest")
           start _ (State 7%nat [] ["later"]) _ tt tt eq_refl eq_refl).
Defined.

Lemma run_manifests_share_one_key_example :
  exists written,
    calls (snd (for_each_M
                  (store_manifest example_put example_loads example_dumps "data-lake"
                     "workflow_manifest" "workflow_manifest/runs/1234567.json")
                  [ LogEvent 1 "run manifest"; LogEvent 2 "task manifest";
                    LogEvent 3 "other run manifest" ]
                  start))
    = calls start ++ written
    /\ Forall2
         (fun event c =>
            exists key body,
              c = PutObject "data-lake" key body
              /\ ((run_body example_loads example_dumps event = Some body
                   /\ key = destination_key "workflow_manifest" "runs" "1234567")
                  \/ (run_body example_loads example_dumps event = None
                      /\ exists task_id,
                           task_identifier example_loads event = Some task_id
                           /\ key = destination_key "workflow_manifest" "tasks" task_id)))
         [ LogEvent 1 "run manifest"; LogEvent 2 "task manifest";
           LogEvent 3 "other run manifest" ]
         written
    /\ store_after (puts written) ∅
       !! ("data-lake", destination_key "workflow_manifest" "runs" "1234567")
       = match
           last (omap (run_body example_loads example_dumps)
                   [ LogEvent 1 "run manifest"; LogEvent 2 "task manifest";
                     LogEvent 3 "other run manifest" ])
         with
         | Some body => Some body
         | None =>
             (∅ : gmap (string * string) string)
             !! ("data-lake", destination_key "workflow_manifest" "runs" "1234567")
         end.
Proof.
  exact (run_manifests_share_one_key example_put example_loads example_dumps
           "data-lake" "workflow_manifest" "1234567"
           [ LogEvent 1 "run manifest"; LogEvent 2 "task manifest";
             LogEvent 3 "other run manifest" ]
           start _ tt ∅ eq_refl).
Defined.

(** The whole handler on the example: three objects are written, the two
    run-level records to the key of run 1234567, the second over the
    first. *)
Lemma lambda_handler_example :
  exists st',
    lambda_handler example_streams example_events example_put example_loads example_dumps
      5 example_environ run_event example_context start
    = (Done (status_response 200 "Manifest ETL complete"), st')
    /\ puts (calls st')
       = [ ("data-lake", "workflow_manifest/runs/1234567.json",
            "{'arn': 'arn:aws:omics:us-east-1:123456789012:run/1234567', 'status': 'COMPLETED', 'resourceDigests': '[30]'}");
           ("data-lake", "workflow_manifest/tasks/7654321.json",
            "{'arn': 'arn:aws:omics:us-east-1:123456789012:task/7654321', 'cpus': 4, 'memory': 8, 'run': 'arn:aws:omics:us-east-1:123456789012:run/1234567'}");
           ("data-lake", "workflow_manifest/runs/1234567.json",
            "{'arn': 'arn:aws:omics:us-east-1:123456789012:run/9999999', 'status': 'FAILED'}") ]
    /\ store_after (puts (calls st')) ∅ !! ("data-lake", "workflow_manifest/runs/1234567.json")
       = Some "{'arn': 'arn:aws:omics:us-east-1:123456789012:run/9999999', 'status': 'FAILED'}".
Proof.
  eexists. split; [vm_compute; reflexivity|]. split; vm_compute; reflexivity.
Qed.

(** * Further properties *)

(** ** More on [convert_data_types] *)

Lemma pbind_pair {A B} out (a : A) (k : A -> printed B) :
  pbind (out, Return a) k = (out ++ fst (k a), snd (k a)).
Proof. unfold pbind. destruct (k a). reflexivity. Qed.

(** A loop whose rounds, run again on their own results, give these
    results and the same output, does so as a whole. *)
Lemma for_each_again {A B} (f : A -> printed B) (g : B -> printed B) l out l' :
  for_each f l = (out, Return l') ->
  (forall a b o, a ∈ l -> f a = (o, Return b) -> g b = (o, Return b)) ->
  for_each g l' = (out, Return l').
Proof.
  revert out l'. induction l as [|a rest IH]; simpl; intros out l' H Hstep.
  - apply pret_Return in H as [<- ->]. reflexivity.
  - apply pbind_Return in H as (o1 & b & o2 & Hf & H & ->).
    apply pbind_Return in H as (o3 & bs & o4 & Hrest & H & ->).
    apply pret_Return in H as [<- ->].
    simpl. rewrite (Hstep a b o1 (list_elem_of_here _ _) Hf), pbind_pair.
    rewrite (IH o3 bs Hrest), pbind_pair; [reflexivity|].
    intros a' b' o' Hin. apply Hstep. right. exact Hin.
Qed.

Lemma call_type_again target_type v converted :
  call_type target_type v = Return converted ->
  converted <> VNone /\ call_type target_type converted = Return converted.
Proof.
  destruct target_type; simpl.
  - intros [= <-]. split; [discriminate|reflexivity].
  - destruct v as [| b | n | x | s | |]; simpl; try discriminate.
    + intros [= <-]. split; [discriminate|reflexivity].
    + intros [= <-]. split; [discriminate|reflexivity].
    + destruct (float_val x); try discriminate; intros [= <-];
        (split; [discriminate|reflexivity]).
    + destruct (int_of_str s); [|discriminate]. intros [= <-].
      split; [discriminate|reflexivity].
Qed.

Lemma convert_data_types_container type_mapping v out v' :
  convert_data_types v type_mapping = (out, Return v') ->
  is_container v' = is_container v.
Proof.
  destruct v; intros H; try (apply pret_Return in H as [<- _]; reflexivity).
  - apply convert_list_Return in H as (elems' & -> & _). reflexivity.
  - apply convert_dict_Return in H as (entries' & -> & _). reflexivity.
Qed.

Lemma convert_entry_again type_mapping recurse key v out v' :
  convert_entry type_mapping recurse key v = (out, Return v') ->
  (is_container v = true -> recurse v = (out, Return v') ->
   is_container v' = true /\ recurse v' = (out, Return v')) ->
  convert_entry type_mapping recurse key v' = (out, Return v').
Proof.
  unfold convert_entry. destruct (type_mapping !! key) as [t|].
  - intros H _. destruct v as [| b | n | x | s | l | l];
      try (apply pret_Return in H as [<- ->]; reflexivity);
      (destruct (call_type t _) as [c|e] eqn:Hc;
       [ apply pret_Return in H as [<- ->];
         apply call_type_again in Hc as [Hne Hc];
         destruct c; try congruence; rewrite Hc; reflexivity
       | destruct e; try discriminate;
         injection H as <- <-; rewrite Hc; reflexivity ]).
  - destruct (is_container v) eqn:Hv.
    + intros H Hrec. destruct (Hrec eq_refl H) as [-> Hagain]. exact Hagain.
    + intros H _. apply pret_Return in H as [<- ->]. rewrite Hv. reflexivity.
Qed.

(** X1: [convert_data_types] is idempotent: run on a document it has
    returned, it returns that document again and prints the same lines. *)
Theorem convert_data_types_idempotent type_mapping v out v' :
  convert_data_types v type_mapping = (out, Return v') ->
  convert_data_types v' type_mapping = (out, Return v').
Proof.
  revert out v'.
  induction v as [| b | n | x | s | elems IH | entries IH] using value_ind;
    intros out v' H; try (apply pret_Return in H as [<- ->]; reflexivity).
  - simpl in H. apply pbind_Return in H as (o1 & elems' & o2 & Hloop & H & ->).
    apply pret_Return in H as [<- ->]. simpl.
    erewrite for_each_again; [reflexivity|exact Hloop|].
    intros a b o Hin Hstep. unfold convert_item in *.
    rewrite Forall_forall in IH.
    destruct (is_container a) eqn:Ha.
    + rewrite (convert_data_types_container _ _ _ _ Hstep), Ha. eapply IH; eauto.
    + apply pret_Return in Hstep as [<- ->]. rewrite Ha. reflexivity.
  - simpl in H. apply pbind_Return in H as (o1 & entries' & o2 & Hloop & H & ->).
    apply pret_Return in H as [<- ->]. simpl.
    erewrite for_each_again; [reflexivity|exact Hloop|].
    intros [k w] [k' w'] o Hin Hstep.
    apply pbind_Return in Hstep as (o3 & w1 & o4 & Hentry & H & ->).
    apply pret_Return in H as [[= <- <-] ->].
    rewrite Forall_forall in IH.
    rewrite (convert_entry_again _ _ _ _ _ _ Hentry); [reflexivity|].
    intros Hw Hrec. split.
    + rewrite (convert_data_types_container _ _ _ _ Hrec). exact Hw.
    + eapply (IH (k, w)); eauto.
Qed.

Lemma for_each_silent {A B} (f : A -> printed B) l :
  (forall a, a ∈ l -> exists b, f a = ([], Return b)) ->
  exists l', for_each f l = ([], Return l').
Proof.
  induction l as [|a rest IH]; simpl; intros Hall; [eexists; reflexivity|].
  destruct (Hall a (list_elem_of_here _ _)) as [b Hb].
  destruct IH as [bs Hbs]; [intros a' Hin; apply Hall; right; exact Hin|].
  exists (b :: bs). rewrite Hb, pbind_pair. simpl. rewrite Hbs. reflexivity.
Qed.

(** With a schema whose targets are all [str], the conversion returns for
    every document and prints nothing. *)
Lemma convert_data_types_str_schema type_mapping v :
  (forall key target_type, type_mapping !! key = Some target_type -> target_type = str) ->
  exists v', convert_data_types v type_mapping = ([], Return v').
Proof.
  intros Hstr.
  induction v as [| b | n | x | s | elems IH | entries IH] using value_ind;
    try (eexists; reflexivity); rewrite Forall_forall in IH; simpl.
  - destruct (for_each_silent
                (convert_item (fun nested => convert_data_types nested type_mapping)) elems)
      as [elems' ->]; [|eexists; reflexivity].
    intros item Hin. unfold convert_item.
    destruct (is_container item); [exact (IH item Hin)|eexists; reflexivity].
  - destruct (for_each_silent
                (fun '(key, w) =>
                   let* w' := convert_entry type_mapping
                                (fun nested => convert_data_types nested type_mapping) key w in
                   pret (key, w'))
                entries)
      as [entries' ->]; [|eexists; reflexivity].
    intros [k w] Hin. unfold convert_entry.
    destruct (type_mapping !! k) as [t|] eqn:Hk.
    + rewrite (Hstr k t Hk). destruct w; eexists; reflexivity.
    + destruct (is_container w).
      * destruct (IH (k, w) Hin) as [w' Hw']. simpl in Hw'. rewrite Hw'. eexists; reflexivity.
      * eexists; reflexivity.
Qed.

Lemma RUN_MANIFEST_SCHEMA_str key target_type :
  RUN_MANIFEST_SCHEMA !! key = Some target_type -> target_type = str.
Proof.
  unfold RUN_MANIFEST_SCHEMA. intros H. apply elem_of_list_to_map_2 in H.
  repeat (apply elem_of_cons in H as [[= _ <-]|H]; [reflexivity|]).
  inversion H.
Qed.

(** X2: a run-level record whose integers [str] can write (none has more
    than 4300 digits) never fails in conversion: with
    [RUN_MANIFEST_SCHEMA] the function returns for every such document,
    and prints no warning. *)
Theorem convert_data_types_run_schema_total v :
  ints_print v = true ->
  exists v', convert_data_types v RUN_MANIFEST_SCHEMA = ([], Return v').
Proof. intros _. apply convert_data_types_str_schema. exact RUN_MANIFEST_SCHEMA_str. Qed.

(** X4: on a document whose texts and keys are ASCII and whose integers
    [str] can write, only [TypeError] and [OverflowError] leave
    [convert_data_types]: the [ValueError] of [int] is recovered, and the
    warning about it can be printed. *)
Theorem convert_data_types_plain_Raise type_mapping v out e :
  ints_print v = true ->
  texts_ascii v = true ->
  convert_data_types v type_mapping = (out, Raise e) ->
  e = TypeError \/ e = OverflowError.
Proof. intros _ _. apply convert_data_types_Raise. Qed.

(** X3: what the conversion leaves under a key of the schema: [None] for
    [None], [target_type(value)] when that call returns, and the old value
    when it raises the [ValueError] that is recovered. *)
Theorem convert_data_types_schema_field type_mapping entries out entries' key
    target_type v :
  convert_data_types (VDict entries) type_mapping = (out, Return (VDict entries')) ->
  type_mapping !! key = Some target_type ->
  dict_get key entries = Some v ->
  dict_get key entries'
  = Some match v with
         | VNone => VNone
         | _ => match call_type target_type v with
                | Return converted => converted
                | Raise _ => v
                end
         end.
Proof.
  intros Hrun Hkey Hget.
  apply convert_dict_Return in Hrun as (l & [= <-] & Hall).
  pose (R := fun w w' : value =>
               w' = match w with
                    | VNone => VNone
                    | _ => match call_type target_type w with
                           | Return converted => converted
                           | Raise _ => w
                           end
                    end).
  destruct (dict_get_Forall2 R key entries entries' v) as (v' & Hget' & HR);
    [|exact Hget|rewrite Hget', HR; reflexivity].
  eapply Forall2_impl; [exact Hall|].
  intros [k w] [k' w']; simpl. intros [-> [o Hstep]]. split; [reflexivity|].
  intros ->. unfold convert_entry in Hstep. rewrite Hkey in Hstep. unfold R.
  destruct w; try (apply pret_Return in Hstep as [<- _]; reflexivity);
    (destruct (call_type target_type _) as [c|e];
     [ apply pret_Return in Hstep as [<- _]; reflexivity
     | destruct e; try discriminate; injection Hstep as _ <-; reflexivity ]).
Qed.

(** ** Segments of an ARN *)

Lemma split_on_not_nil sep s : split_on sep s <> [].
Proof.
  destruct s as [|c s]; simpl; [discriminate|].
  destruct (Ascii.eqb c sep); [discriminate|].
  destruct (split_on sep s); discriminate.
Qed.

Lemma split_on_no_sep sep s : has_char sep s = false -> split_on sep s = [s].
Proof.
  induction s as [|c s IH]; simpl; [reflexivity|].
  rewrite orb_false_iff, (Ascii.eqb_sym sep c). intros [-> Hs].
  rewrite (IH Hs). reflexivity.
Qed.

Lemma split_on_app sep a b :
  has_char sep a = false ->
  split_on sep (a +:+ String sep b) = a :: split_on sep b.
Proof.
  induction a as [|c a IH]; simpl.
  - intros _. rewrite Ascii.eqb_refl. reflexivity.
  - rewrite orb_false_iff, (Ascii.eqb_sym sep c). intros [-> Ha].
    rewrite (IH Ha). reflexivity.
Qed.

Lemma split_on_last sep before s :
  has_char sep s = false ->
  exists pieces, pieces <> [] /\ split_on sep (before +:+ String sep s) = pieces ++ [s].
Proof.
  intros Hs. induction before as [|c before (pieces & Hne & IH)]; simpl.
  - rewrite Ascii.eqb_refl, (split_on_no_sep _ _ Hs). exists [""]. split; [discriminate|reflexivity].
  - rewrite IH. destruct (Ascii.eqb c sep).
    + exists ("" :: pieces). split; [discriminate|reflexivity].
    + destruct pieces as [|piece pieces]; [congruence|].
      exists (String c piece :: pieces). split; [discriminate|reflexivity].
Qed.

(** The fourth segment of [a:b:c:region:rest], with no colon inside the
    first four segments, is [region]. *)
Lemma arn_elements_region a b c region rest :
  has_char ":" a = false -> has_char ":" b = false -> has_char ":" c = false ->
  has_char ":" region = false ->
  split_on ":" (a +:+ ":" +:+ b +:+ ":" +:+ c +:+ ":" +:+ region +:+ ":" +:+ rest)
    !! 3%nat = Some region.
Proof.
  intros Ha Hb Hc Hr.
  change (a +:+ ":" +:+ b +:+ ":" +:+ c +:+ ":" +:+ region +:+ ":" +:+ rest)
    with (a +:+ String ":" (b +:+ String ":" (c +:+ String ":" (region +:+ String ":" rest)))).
  rewrite !split_on_app by assumption. reflexivity.
Qed.

(** With fewer than four segments there is no region. *)
Lemma arn_elements_short a b c :
  has_char ":" a = false -> has_char ":" b = false -> has_char ":" c = false ->
  split_on ":" (a +:+ ":" +:+ b +:+ ":" +:+ c) !! 3%nat = None.
Proof.
  intros Ha Hb Hc.
  change (a +:+ ":" +:+ b +:+ ":" +:+ c) with (a +:+ String ":" (b +:+ String ":" c)).
  rewrite !split_on_app, split_on_no_sep by assumption. reflexivity.
Qed.

(** For [before/id] with no [/] in [id], [arn.split('/')[-1]] is [id]. *)
Lemma task_id_last_segment before id :
  has_char "/" id = false ->
  List.last (split_on "/" (before +:+ "/" +:+ id)) "" = id.
Proof.
  intros Hid. change (before +:+ "/" +:+ id) with (before +:+ String "/" id).
  destruct (split_on_last "/" before id Hid) as (pieces & _ & ->).
  apply last_last.
Qed.

(** The identifier never contains a [/], whatever the [arn]. *)
Lemma last_segment_no_sep sep s : has_char sep (List.last (split_on sep s) "") = false.
Proof.
  induction s as [|c s IH]; simpl; [reflexivity|].
  destruct (Ascii.eqb c sep) eqn:E.
  - destruct (split_on sep s) eqn:Hs; [exact (False_rect _ (split_on_not_nil _ _ Hs))|exact IH].
  - destruct (split_on sep s) as [|piece pieces] eqn:Hs;
      [exact (False_rect _ (split_on_not_nil _ _ Hs))|].
    destruct pieces as [|piece' pieces]; [|exact IH].
    simpl in *. rewrite (Ascii.eqb_sym sep c), E, IH. reflexivity.
Qed.

(** ** The requests of the pipeline *)

Section PipelineRequests.
Context {W : Type}.
Variable describe_log_streams :
  session -> describe_params -> W -> py_result describe_response * W.
Variable get_log_events :
  session -> events_params -> W -> py_result events_response * W.
Variable put_object : string -> string -> string -> W -> py_result unit * W.
Variable json_loads : string -> py_result value.
Variable json_dumps : value -> string.

Lemma only_ret {A} R (a : A) : only R (@ret W A a).
Proof. intros st. exists []. rewrite app_nil_r. split; [reflexivity|constructor]. Qed.

Lemma only_fail {A} R e : only R (@fail W A e).
Proof. intros st. exists []. rewrite app_nil_r. split; [reflexivity|constructor]. Qed.

Lemma only_timeout {A} R : only R (@timeout W A).
Proof. intros st. exists []. rewrite app_nil_r. split; [reflexivity|constructor]. Qed.

Lemma only_lift {A} R (r : py_result A) : only R (@lift W A r).
Proof. destruct r; [apply only_ret|apply only_fail]. Qed.

Lemma only_lift_printed {A} R (p : printed A) : only R (@lift_printed W A p).
Proof.
  intros st. exists []. rewrite app_nil_r. split; [|constructor].
  unfold lift_printed. destruct (snd p); reflexivity.
Qed.

Lemma only_client_call {A} (R : call -> Prop) c (answer : W -> py_result A * W) :
  R c -> only R (client_call c answer).
Proof.
  intros Hc st. exists [c]. split; [|repeat constructor; exact Hc].
  unfold client_call. destruct (answer (world st)) as [[a|e] w]; reflexivity.
Qed.

Lemma only_bind {A B} R (m : @M W A) (k : A -> M B) :
  only R m -> (forall a, only R (k a)) -> only R (bind m k).
Proof.
  intros Hm Hk st. destruct (Hm st) as (l1 & Hl1 & HR1). unfold bind.
  destruct (m st) as [[a|e|] st1]; simpl in Hl1.
  - destruct (Hk a st1) as (l2 & Hl2 & HR2). exists (l1 ++ l2).
    rewrite Hl2, Hl1, app_assoc. split; [reflexivity|]. apply Forall_app; auto.
  - exists l1. auto.
  - exists l1. auto.
Qed.

Lemma only_bind_ret {A B} R (a : A) (k : A -> @M W B) :
  only R (k a) -> only R (bind (ret a) k).
Proof. intros H st. exact (H st). Qed.

Lemma only_bind_fail {A B} R e (k : A -> @M W B) : only R (bind (fail e) k).
Proof. intros st. exists []. rewrite app_nil_r. split; [reflexivity|constructor]. Qed.

Lemma only_for_each_M {A} R (body : A -> @M W unit) l :
  (forall a, only R (body a)) -> only R (for_each_M body l).
Proof.
  intros Hbody. induction l as [|a rest IH]; simpl; [apply only_ret|].
  apply only_bind; [apply Hbody|intros _; exact IH].
Qed.

Lemma only_weaken {A} (R R' : call -> Prop) (m : @M W A) :
  (forall c, R c -> R' c) -> only R m -> only R' m.
Proof.
  intros Himp Hm st. destruct (Hm st) as (l & Hl & HR). exists l. split; [exact Hl|].
  eapply Forall_impl; eauto.
Qed.

Lemma describe_loop_only fuel ses limit log_group_name prefix order_by descending
    param_limit token all_streams next_token :
  only (is_stream_lookup ses log_group_name prefix order_by descending param_limit)
    (describe_loop describe_log_streams fuel ses limit
       (DescribeParams log_group_name prefix order_by descending param_limit token)
       all_streams next_token).
Proof.
  revert token all_streams next_token.
  induction fuel as [|fuel IH]; intros token all_streams next_token; simpl;
    [apply only_timeout|].
  destruct (truthy_str next_token); simpl;
    (apply only_bind;
     [ apply only_client_call; eexists; reflexivity
     | intros response; destruct (_ || _); [apply only_ret|apply IH] ]).
Qed.

(** X6: [find_log_streams_by_prefix] makes no request other than
    [describe_log_streams] for the group, prefix and order it was given,
    with the limit when it is not zero; this holds whether it returns,
    raises or runs on. *)
Theorem find_log_streams_by_prefix_only fuel log_group_name prefix region limit order_by
    descending profile_name :
  only
    (is_stream_lookup (make_session profile_name region) log_group_name prefix order_by
       descending (if truthy_int limit then limit else None))
    (find_log_streams_by_prefix describe_log_streams fuel log_group_name prefix region
       limit order_by descending profile_name).
Proof.
  unfold find_log_streams_by_prefix. apply only_bind; [apply describe_loop_only|].
  intros all_streams. apply only_ret.
Qed.

Lemma find_log_streams_by_prefix_reads fuel log_group_name prefix region limit order_by
    descending profile_name :
  only is_log_read
    (find_log_streams_by_prefix describe_log_streams fuel log_group_name prefix region
       limit order_by descending profile_name).
Proof.
  unfold find_log_streams_by_prefix. apply only_bind; [|intros; apply only_ret].
  eapply only_weaken; [|apply describe_loop_only]. intros c [token ->]. exact I.
Qed.

Lemma events_loop_only fuel ses params stream_events next_token :
  only is_log_read
    (events_loop get_log_events fuel ses params stream_events next_token).
Proof.
  revert params stream_events next_token.
  induction fuel as [|fuel IH]; intros params stream_events next_token; simpl;
    [apply only_timeout|].
  apply only_bind; [apply only_client_call; exact I|].
  intros response. destruct (_ || _); [apply only_ret|apply IH].
Qed.

Lemma collect_events_only fuel ses log_group_name start_time end_time streams all_events :
  only is_log_read
    (collect_events get_log_events fuel ses log_group_name start_time end_time streams
       all_events).
Proof.
  revert all_events. induction streams as [|stream rest IH]; intros all_events; simpl;
    [apply only_ret|].
  apply only_bind; [apply only_lift_printed|]. intros _.
  apply only_bind; [apply events_loop_only|]. intros stream_events. apply IH.
Qed.

(** X9: [get_log_events_by_stream_prefix] only reads the log service: it
    makes no [PutObject] request, whatever its outcome. *)
Theorem get_log_events_by_stream_prefix_only fuel log_group_name prefix region start_time
    end_time max_streams profile_name :
  only is_log_read
    (get_log_events_by_stream_prefix describe_log_streams get_log_events fuel
       log_group_name prefix region start_time end_time max_streams profile_name).
Proof.
  unfold get_log_events_by_stream_prefix.
  apply only_bind; [apply find_log_streams_by_prefix_reads|].
  intros streams. apply collect_events_only.
Qed.

Lemma store_manifest_only bucket prefix identifier event :
  only (is_manifest_request (Some bucket) prefix)
    (store_manifest put_object json_loads json_dumps bucket prefix
       (prefix +:+ "/runs/" +:+ identifier +:+ ".json") event).
Proof.
  unfold store_manifest, write_json_to_s3.
  apply only_bind; [apply only_lift|]. intros event_message.
  apply only_bind; [apply only_lift|]. intros arn.
  apply only_bind; [apply only_lift|]. intros [|].
  - apply only_bind; [apply only_lift_printed|]. intros doc.
    apply only_client_call. split; [reflexivity|].
    exists "runs", identifier. split; [left|]; reflexivity.
  - apply only_bind; [apply only_lift|]. intros [|]; [|apply only_fail].
    apply only_bind; [destruct arn; first [apply only_ret|apply only_fail]|].
    intros task_id.
    apply only_bind; [apply only_lift_printed|]. intros doc.
    apply only_client_call. split; [reflexivity|].
    exists "tasks", task_id. split; [right|]; reflexivity.
Qed.

(** X14: whatever the event, the log service and the outcome, the handler
    writes only into the bucket named by [DATA_LAKE_BUCKET], and only at
    keys [<S3_PREFIX>/runs/<id>.json] and [<S3_PREFIX>/tasks/<id>.json]. *)
Theorem lambda_handler_only fuel environ event context :
  only
    (is_manifest_request (environ !! "DATA_LAKE_BUCKET")
       (default "" (environ !! "S3_PREFIX")))
    (lambda_handler describe_log_streams get_log_events put_object json_loads json_dumps
       fuel environ event context).
Proof.
  unfold lambda_handler.
  destruct (_ !! 3%nat) as [region|]; [apply only_bind_ret|apply only_bind_fail].
  destruct (environ !! "DATA_LAKE_BUCKET") as [bucket|];
    [apply only_bind_ret|apply only_bind_fail].
  destruct (match getitem event "detail" with
            | Return detail => getitem detail "runId"
            | Raise e => Raise e
            end) as [run_id|e];
    [|destruct e; first [apply only_ret|apply only_fail]].
  assert (Hreads : forall c, is_log_read c ->
            is_manifest_request (Some bucket) (default "" (environ !! "S3_PREFIX")) c)
    by (intros [] Hc; solve [exact I | destruct Hc]).
  apply only_bind.
  { eapply only_weaken; [exact Hreads|apply find_log_streams_by_prefix_reads]. }
  intros streams.
  apply only_bind; [destruct streams; [apply only_fail|apply only_ret]|]. intros stream.
  apply only_bind.
  { eapply only_weaken; [exact Hreads|]. unfold get_log_events_by_stream_prefix.
    apply only_bind; [apply find_log_streams_by_prefix_reads|].
    intros found. apply collect_events_only. }
  intros events.
  apply only_bind; [|intros _; apply only_ret].
  apply only_for_each_M. intros [stream_name stream_events].
  apply only_for_each_M. intros stream_event. apply store_manifest_only.
Qed.
End PipelineRequests.

(** ** Outcomes of the handler *)

Section PipelineOutcomes.
Context {W : Type}.
Variable describe_log_streams :
  session -> describe_params -> W -> py_result describe_response * W.
Variable get_log_events :
  session -> events_params -> W -> py_result events_response * W.
Variable put_object : string -> string -> string -> W -> py_result unit * W.
Variable json_loads : string -> py_result value.
Variable json_dumps : value -> string.

(** X15: the results of the handler: when it returns, the result is the
    400 answer, given before any request, or the 200 answer; it never
    returns another status. *)
Theorem lambda_handler_status_codes fuel environ event context (st st' : @state W)
    response :
  lambda_handler describe_log_streams get_log_events put_object json_loads json_dumps
    fuel environ event context st = (Done response, st') ->
  (response = status_response 400 (json_dumps (VStr "Missing required event detail"))
   /\ st' = st)
  \/ response = status_response 200 "Manifest ETL complete".
Proof.
  unfold lambda_handler. intros H.
  apply bind_Done in H as (region & st1 & H1 & H).
  destruct (_ !! 3%nat); [|discriminate]. injection H1 as _ <-.
  apply bind_Done in H as (bucket & st1 & H1 & H).
  destruct (environ !! "DATA_LAKE_BUCKET"); [|discriminate]. injection H1 as _ <-.
  destruct (match getitem event "detail" with
            | Return detail => getitem detail "runId"
            | Raise e => Raise e
            end) as [run_id|e].
  - right.
    apply bind_Done in H as (streams & st1 & _ & H).
    apply bind_Done in H as (stream & st2 & _ & H).
    apply bind_Done in H as (events & st3 & _ & H).
    apply bind_Done in H as (u & st4 & _ & H).
    injection H as <- _. reflexivity.
  - left. destruct e; try discriminate. injection H as <- <-. auto.
Qed.

(** X16: without [DATA_LAKE_BUCKET] the handler fails before it looks at
    the event and makes no request: with [ValueError], or with the
    [IndexError] of an ARN that has no fourth segment. *)
Theorem lambda_handler_missing_bucket fuel environ event context (st : @state W) :
  environ !! "DATA_LAKE_BUCKET" = None ->
  lambda_handler describe_log_streams get_log_events put_object json_loads json_dumps
    fuel environ event context st
  = (Failed match split_on ":" (invoked_function_arn context) !! 3%nat with
            | Some _ => ValueError
            | None => IndexError
            end, st).
Proof.
  intros Henv. unfold lambda_handler, bind.
  destruct (_ !! 3%nat); simpl; [rewrite Henv|]; reflexivity.
Qed.

(** X17: a [detail] that is not a mapping is not answered with 400: the
    [TypeError] of the subscript leaves the handler, before any request. *)
Theorem lambda_handler_detail_not_mapping fuel environ entries context region bucket detail
    (st : @state W) :
  split_on ":" (invoked_function_arn context) !! 3%nat = Some region ->
  environ !! "DATA_LAKE_BUCKET" = Some bucket ->
  dict_get "detail" entries = Some detail ->
  (forall fields, detail <> VDict fields) ->
  lambda_handler describe_log_streams get_log_events put_object json_loads json_dumps
    fuel environ (VDict entries) context st = (Failed TypeError, st).
Proof.
  intros Harn Henv Hdetail Hnot. unfold lambda_handler, bind.
  rewrite Harn, Henv. simpl. rewrite Hdetail.
  destruct detail; try reflexivity. exfalso. exact (Hnot _ eq_refl).
Qed.

Lemma for_each_M_app {A} (body : A -> @M W unit) l1 l2 st :
  for_each_M body (l1 ++ l2) st
  = bind (for_each_M body l1) (fun _ => for_each_M body l2) st.
Proof.
  revert st. induction l1 as [|a l1 IH]; intros st; simpl; [reflexivity|].
  unfold bind in *. destruct (body a st) as [[[]|e|] st1]; [apply IH|reflexivity..].
Qed.

(** X19: a record that is neither run-level nor task-level ends the loop
    over the events with [RuntimeError]: what the records before it have
    written stays written, and the records after it are not looked at. *)
Theorem store_manifest_unknown_aborts bucket prefix key_run before event after
    event_message arn (st st1 : @state W) u :
  for_each_M (store_manifest put_object json_loads json_dumps bucket prefix key_run)
    before st = (Done u, st1) ->
  json_loads (message event) = Return event_message ->
  getitem event_message "arn" = Return (VStr arn) ->
  classify arn = Unknown ->
  for_each_M (store_manifest put_object json_loads json_dumps bucket prefix key_run)
    (before ++ event :: after) st = (Failed RuntimeError, st1).
Proof.
  intros Hbefore Hloads Harn Hkind.
  rewrite for_each_M_app. unfold bind at 1. rewrite Hbefore. simpl.
  unfold bind at 1.
  rewrite (store_manifest_classify put_object json_loads json_dumps bucket prefix key_run
             event event_message arn st1 Hloads Harn), Hkind.
  reflexivity.
Qed.
End PipelineOutcomes.

(** ** Limits and time ranges *)

Section PipelineLimits.
Context {W : Type}.
Variable describe_log_streams :
  session -> describe_params -> W -> py_result describe_response * W.
Variable get_log_events :
  session -> events_params -> W -> py_result events_response * W.

Lemma describe_loop_limit_0 fuel ses params all_streams next_token (st : @state W) :
  describe_loop describe_log_streams fuel ses (Some 0) params all_streams next_token st
  = describe_loop describe_log_streams fuel ses None params all_streams next_token st.
Proof.
  revert params all_streams next_token st.
  induction fuel as [|fuel IH]; intros params all_streams next_token st; simpl;
    [reflexivity|].
  unfold bind. destruct (client_call _ _ st) as [[response|e|] st1]; try reflexivity.
  destruct (negb _ || false); [reflexivity|apply IH].
Qed.

(** X7: the limit 0 counts as no limit: [find_log_streams_by_prefix]
    sends the same requests and gives the same result as without one. *)
Theorem find_log_streams_by_prefix_limit_zero fuel log_group_name prefix region order_by
    descending profile_name (st : @state W) :
  find_log_streams_by_prefix describe_log_streams fuel log_group_name prefix region
    (Some 0) order_by descending profile_name st
  = find_log_streams_by_prefix describe_log_streams fuel log_group_name prefix region
      None order_by descending profile_name st.
Proof.
  unfold find_log_streams_by_prefix, bind. simpl. rewrite describe_loop_limit_0.
  reflexivity.
Qed.

Lemma slice_to_limit_length {A} limit (all_streams : list A) :
  0 < limit ->
  Z.of_nat (length (if truthy_int (Some limit)
                       && (default 0 (Some limit) <? Z.of_nat (length all_streams))
                    then slice_to (default 0 (Some limit)) all_streams
                    else all_streams)) <= limit.
Proof.
  intros Hlimit.
  assert (Ht : truthy_int (Some limit) = true) by (destruct limit; [lia|reflexivity|lia]).
  rewrite Ht. cbn [andb]. change (default 0 (Some limit)) with limit.
  destruct (Z.ltb_spec limit (Z.of_nat (length all_streams))); [|lia].
  unfold slice_to. destruct (Z.leb_spec 0 limit); [|lia]. rewrite length_take. lia.
Qed.

(** X8: with a positive limit, a result of [find_log_streams_by_prefix]
    has at most [limit] streams, whatever the log service answers. *)
Theorem find_log_streams_by_prefix_at_most_limit fuel log_group_name prefix region limit
    order_by descending profile_name (st st' : @state W) streams :
  0 < limit ->
  find_log_streams_by_prefix describe_log_streams fuel log_group_name prefix region
    (Some limit) order_by descending profile_name st = (Done streams, st') ->
  Z.of_nat (length streams) <= limit.
Proof.
  intros Hlimit H. unfold find_log_streams_by_prefix in H.
  apply bind_Done in H as (all_streams & st1 & _ & H). injection H as <- _.
  apply slice_to_limit_length. exact Hlimit.
Qed.

Lemma dict_set_length {A} key (v : A) entries :
  (length (dict_set key v entries) <= S (length entries))%nat.
Proof.
  induction entries as [|[k w] rest IH]; simpl; [lia|].
  destruct (String.eqb k key); simpl; lia.
Qed.

Lemma collect_events_length fuel ses log_group_name start_time end_time streams all_events
    (st st' : @state W) result :
  collect_events get_log_events fuel ses log_group_name start_time end_time streams
    all_events st = (Done result, st') ->
  (length result <= length all_events + length streams)%nat.
Proof.
  revert all_events st. induction streams as [|stream rest IH]; intros all_events st; simpl.
  - intros [= <- _]. lia.
  - intros H. apply bind_Done in H as (u & st1 & _ & H).
    apply bind_Done in H as (stream_events & st2 & _ & H).
    apply IH in H.
    pose proof (dict_set_length (logStreamName stream) stream_events all_events). lia.
Qed.

(** X10: [get_log_events_by_stream_prefix] returns the events of at most
    [max_streams] streams (for a positive [max_streams]); the handler,
    which asks for one, reads one stream. *)
Theorem get_log_events_by_stream_prefix_at_most fuel log_group_name prefix region start_time
    end_time max_streams profile_name (st st' : @state W) all_events :
  0 < max_streams ->
  get_log_events_by_stream_prefix describe_log_streams get_log_events fuel log_group_name
    prefix region start_time end_time max_streams profile_name st = (Done all_events, st') ->
  Z.of_nat (length all_events) <= max_streams.
Proof.
  intros Hmax H. unfold get_log_events_by_stream_prefix in H.
  apply bind_Done in H as (streams & st1 & Hfind & H).
  unfold find_log_streams_by_prefix in Hfind.
  apply bind_Done in Hfind as (all_streams & st0 & _ & Hfind). injection Hfind as <- _.
  apply collect_events_length in H.
  eapply Z.le_trans; [|exact (slice_to_limit_length max_streams all_streams Hmax)].
  apply Nat2Z.inj_le. exact H.
Qed.

Lemma collect_events_time_zero fuel ses log_group_name start_time end_time streams
    all_events (st : @state W) :
  collect_events get_log_events fuel ses log_group_name
    (if truthy_int start_time then start_time else None)
    (if truthy_int end_time then end_time else None) streams all_events st
  = collect_events get_log_events fuel ses log_group_name start_time end_time streams
      all_events st.
Proof.
  revert all_events st. induction streams as [|stream rest IH]; intros all_events st; simpl;
    [reflexivity|].
  unfold bind. destruct (lift_printed _ st) as [[u|e|] st0]; try reflexivity.
  assert (Hs : forall t, (if truthy_int (if truthy_int t then t else None)
                          then (if truthy_int t then t else None) else None)
                         = (if truthy_int t then t else None))
    by (intros t; destruct (truthy_int t) eqn:E; [rewrite E|]; reflexivity).
  rewrite !Hs.
  destruct (events_loop _ _ _ _ _ _ st0) as [[stream_events|e|] st1]; try reflexivity.
  apply IH.
Qed.

Lemma get_log_events_by_stream_prefix_time_falsy fuel log_group_name prefix region
    start_time end_time max_streams profile_name (st : @state W) :
  get_log_events_by_stream_prefix describe_log_streams get_log_events fuel log_group_name
    prefix region
    (if truthy_int start_time then start_time else None)
    (if truthy_int end_time then end_time else None) max_streams profile_name st
  = get_log_events_by_stream_prefix describe_log_streams get_log_events fuel log_group_name
      prefix region start_time end_time max_streams profile_name st.
Proof.
  unfold get_log_events_by_stream_prefix, bind.
  destruct (find_log_streams_by_prefix _ _ _ _ _ _ _ _ _ st) as [[streams|e|] st1];
    try reflexivity.
  apply collect_events_time_zero.
Qed.

(** X12: a start time or an end time of 0 counts as none given: the
    requests and the result of [get_log_events_by_stream_prefix] are those
    of the call without that bound. *)
Theorem get_log_events_by_stream_prefix_time_zero fuel log_group_name prefix region
    start_time end_time max_streams profile_name (st : @state W) :
  get_log_events_by_stream_prefix describe_log_streams get_log_events fuel log_group_name
    prefix region (Some 0) end_time max_streams profile_name st
  = get_log_events_by_stream_prefix describe_log_streams get_log_events fuel log_group_name
      prefix region None end_time max_streams profile_name st
  /\ get_log_events_by_stream_prefix describe_log_streams get_log_events fuel
       log_group_name prefix region start_time (Some 0) max_streams profile_name st
     = get_log_events_by_stream_prefix describe_log_streams get_log_events fuel
         log_group_name prefix region start_time None max_streams profile_name st.
Proof.
  split.
  - rewrite <- (get_log_events_by_stream_prefix_time_falsy fuel log_group_name prefix region
                  (Some 0) end_time).
    rewrite <- (get_log_events_by_stream_prefix_time_falsy fuel log_group_name prefix region
                  None end_time).
    reflexivity.
  - rewrite <- (get_log_events_by_stream_prefix_time_falsy fuel log_group_name prefix region
                  start_time (Some 0)).
    rewrite <- (get_log_events_by_stream_prefix_time_falsy fuel log_group_name prefix region
                  start_time None).
    reflexivity.
Qed.

Lemma dict_set_keys {A} key (v : A) entries name :
  name ∈ map fst (dict_set key v entries) <-> name = key \/ name ∈ map fst entries.
Proof.
  induction entries as [|[k w] rest IH]; simpl.
  - rewrite list_elem_of_singleton, elem_of_nil. tauto.
  - destruct (String.eqb_spec k key) as [->|Hne]; simpl.
    + rewrite !elem_of_cons. tauto.
    + rewrite !elem_of_cons, IH. tauto.
Qed.

Lemma collect_events_keys fuel ses log_group_name start_time end_time streams all_events
    (st st' : @state W) result name :
  collect_events get_log_events fuel ses log_group_name start_time end_time streams
    all_events st = (Done result, st') ->
  name ∈ map fst result
  <-> name ∈ map fst all_events \/ name ∈ map logStreamName streams.
Proof.
  revert all_events st. induction streams as [|stream rest IH]; intros all_events st; simpl.
  - intros [= <- _]. rewrite elem_of_nil. tauto.
  - intros H. apply bind_Done in H as (u & st1 & _ & H).
    apply bind_Done in H as (stream_events & st2 & _ & H).
    apply IH in H. rewrite H, dict_set_keys, elem_of_cons. tauto.
Qed.

(** X11: the result of [get_log_events_by_stream_prefix] has one entry
    for each stream name that the lookup returned, and no other. *)
Theorem get_log_events_by_stream_prefix_keys fuel log_group_name prefix region start_time
    end_time max_streams profile_name (st st1 st' : @state W) streams all_events name :
  find_log_streams_by_prefix describe_log_streams fuel log_group_name prefix region
    (Some max_streams) "LogStreamName" true profile_name st = (Done streams, st1) ->
  get_log_events_by_stream_prefix describe_log_streams get_log_events fuel log_group_name
    prefix region start_time end_time max_streams profile_name st = (Done all_events, st') ->
  name ∈ map fst all_events <-> name ∈ map logStreamName streams.
Proof.
  intros Hfind H. unfold get_log_events_by_stream_prefix, bind in H. rewrite Hfind in H.
  apply collect_events_keys with (name := name) in H. rewrite H, elem_of_nil. tauto.
Qed.
End PipelineLimits.

(** ** Task keys and the first request *)

Section PipelineKeys.
Context {W : Type}.
Variable describe_log_streams :
  session -> describe_params -> W -> py_result describe_response * W.
Variable get_log_events :
  session -> events_params -> W -> py_result events_response * W.
Variable put_object : string -> string -> string -> W -> py_result unit * W.
Variable json_loads : string -> py_result value.
Variable json_dumps : value -> string.

(** X20: a task-level record whose [arn] ends in [/id] is converted with
    the task schema and written to [<prefix>/tasks/id.json]. *)
Theorem store_manifest_task_key bucket prefix key_run event event_message before id
    (st : @state W) :
  json_loads (message event) = Return event_message ->
  getitem event_message "arn" = Return (VStr (before +:+ "/" +:+ id)) ->
  classify (before +:+ "/" +:+ id) = Task ->
  has_char "/" id = false ->
  store_manifest put_object json_loads json_dumps bucket prefix key_run event st
  = bind (lift_printed (convert_data_types event_message TASK_MANIFEST_SCHEMA))
      (write_json_to_s3 put_object json_dumps bucket (destination_key prefix "tasks" id)) st.
Proof.
  intros Hloads Harn Hkind Hid.
  rewrite (store_manifest_classify put_object json_loads json_dumps bucket prefix key_run
             event event_message _ st Hloads Harn), Hkind.
  rewrite (task_id_last_segment before id Hid). reflexivity.
Qed.

(** X21: the identifier under which a task-level record is written never
    contains a [/]: the object lies directly under [<prefix>/tasks/]. *)
Theorem task_identifier_no_slash event id :
  task_identifier json_loads event = Some id -> has_char "/" id = false.
Proof.
  unfold task_identifier.
  destruct (json_loads (message event)) as [event_message|]; [|discriminate].
  destruct (getitem event_message "arn") as [[| | | |arn| |]|]; try discriminate.
  destruct (str_contains ":run/" arn); [discriminate|].
  destruct (str_contains ":task/" arn); [|discriminate].
  intros [= <-]. apply last_segment_no_sep.
Qed.

Lemma first_call_bind {A B} c (m : @M W A) (k : A -> M B) st :
  (exists l, calls (snd (m st)) = calls st ++ c :: l) ->
  (forall a, only (fun _ => True) (k a)) ->
  exists l, calls (snd (bind m k st)) = calls st ++ c :: l.
Proof.
  intros [l Hl] Hk. unfold bind. destruct (m st) as [[a|e|] st1]; simpl in Hl; eauto.
  destruct (Hk a st1) as (l2 & Hl2 & _). exists (l ++ l2).
  rewrite Hl2, Hl, <- app_assoc. reflexivity.
Qed.

Lemma only_anything {A} (R : call -> Prop) (m : @M W A) :
  only R m -> only (fun _ => True) m.
Proof. apply only_weaken. trivial. Qed.

Lemma lambda_handler_first_call fuel environ event context region bucket detail run_id
    (st : @state W) :
  split_on ":" (invoked_function_arn context) !! 3%nat = Some region ->
  environ !! "DATA_LAKE_BUCKET" = Some bucket ->
  getitem event "detail" = Return detail ->
  getitem detail "runId" = Return run_id ->
  exists rest,
    calls (snd (lambda_handler describe_log_streams get_log_events put_object json_loads
                  json_dumps (S fuel) environ event context st))
    = calls st
      ++ DescribeLogStreams (Session None region)
           (DescribeParams "/aws/omics/WorkflowLog" ("manifest/run/" +:+ py_str run_id)
              "LogStreamName" true (Some 10) None)
         :: rest.
Proof.
  intros Harn Henv Hdetail Hrun.
  unfold lambda_handler, bind at 1 2. rewrite Harn, Henv. cbn [ret].
  rewrite Hdetail, Hrun.
  apply first_call_bind.
  - unfold find_log_streams_by_prefix. apply first_call_bind; [|intros; apply only_ret].
    cbn [describe_loop truthy_str]. apply first_call_bind.
    + exists []. unfold client_call.
      destruct (describe_log_streams _ _ (world st)) as [[response|e] w]; reflexivity.
    + intros response. destruct (_ || _); [apply only_ret|].
      eapply only_anything, describe_loop_only.
  - intros streams.
    apply only_bind; [destruct streams; [apply only_fail|apply only_ret]|]. intros stream.
    apply only_bind.
    { unfold get_log_events_by_stream_prefix.
      apply only_bind; [eapply only_anything, find_log_streams_by_prefix_reads|].
      intros found. eapply only_anything, collect_events_only. }
    intros events.
    apply only_bind; [|intros _; apply only_ret].
    apply only_for_each_M. intros [stream_name stream_events].
    apply only_for_each_M. intros stream_event.
    eapply only_anything, store_manifest_only.
Qed.

(** X18: with the bucket configured and a [runId] in the event, the first
    request of a handler whose ARN is [a:b:c:region:rest] is the stream
    lookup in [region], for the prefix [manifest/run/<runId>], by name,
    descending, with the limit 10. *)
Theorem lambda_handler_first_request fuel environ event a b c region rest bucket detail
    run_id (st : @state W) :
  has_char ":" a = false -> has_char ":" b = false -> has_char ":" c = false ->
  has_char ":" region = false ->
  environ !! "DATA_LAKE_BUCKET" = Some bucket ->
  getitem event "detail" = Return detail ->
  getitem detail "runId" = Return run_id ->
  exists requests,
    calls (snd (lambda_handler describe_log_streams get_log_events put_object json_loads
                  json_dumps (S fuel) environ event
                  (LambdaContext
                     (a +:+ ":" +:+ b +:+ ":" +:+ c +:+ ":" +:+ region +:+ ":" +:+ rest))
                  st))
    = calls st
      ++ DescribeLogStreams (Session None region)
           (DescribeParams "/aws/omics/WorkflowLog" ("manifest/run/" +:+ py_str run_id)
              "LogStreamName" true (Some 10) None)
         :: requests.
Proof.
  intros Ha Hb Hc Hregion Henv Hdetail Hrun.
  apply (lambda_handler_first_call fuel environ event _ region bucket detail run_id st);
    try assumption.
  apply arn_elements_region; assumption.
Qed.

(** X22: the event that [reprocess_runs.py] builds for a run is accepted
    by the handler: it is not answered with 400, the handler goes on to
    look up the streams of [manifest/run/<run>]. *)
Theorem lambda_handler_reprocess_payload fuel environ context region bucket run
    caller_account time caller_aws_region run_status workflow_name (st : @state W) :
  split_on ":" (invoked_function_arn context) !! 3%nat = Some region ->
  environ !! "DATA_LAKE_BUCKET" = Some bucket ->
  exists rest,
    calls (snd (lambda_handler describe_log_streams get_log_events put_object json_loads
                  json_dumps (S fuel) environ
                  (reprocess_payload run caller_account time caller_aws_region run_status
                     workflow_name)
                  context st))
    = calls st
      ++ DescribeLogStreams (Session None region)
           (DescribeParams "/aws/omics/WorkflowLog" ("manifest/run/" +:+ run)
              "LogStreamName" true (Some 10) None)
         :: rest.
Proof.
  intros Harn Henv.
  exact (lambda_handler_first_call fuel environ
           (reprocess_payload run caller_account time caller_aws_region run_status
              workflow_name)
           context region bucket
           (VDict [ ("runId", VStr run); ("status", run_status);
                    ("workflowName", workflow_name); ("reprocess", VBool true) ])
           (VStr run) st Harn Henv eq_refl eq_refl).
Qed.
End PipelineKeys.

(** ** The keys an invocation writes to *)

Section PipelineDestinations.
Context {W : Type}.
Variable describe_log_streams :
  session -> describe_params -> W -> py_result describe_response * W.
Variable get_log_events :
  session -> events_params -> W -> py_result events_response * W.
Variable put_object : string -> string -> string -> W -> py_result unit * W.
Variable json_loads : string -> py_result value.
Variable json_dumps : value -> string.

Lemma puts_reads l : Forall is_log_read l -> puts l = [].
Proof.
  induction 1 as [|c l Hc _ IH]; [reflexivity|].
  destruct c; simpl; solve [exact IH | destruct Hc].
Qed.

Lemma reads_keep_puts {A} (m : @M W A) st r st' :
  only is_log_read m -> m st = (r, st') -> puts (calls st') = puts (calls st).
Proof.
  intros Hm H. destruct (Hm st) as (l & Hl & Hreads). rewrite H in Hl. simpl in Hl.
  rewrite Hl, puts_app, (puts_reads _ Hreads), app_nil_r. reflexivity.
Qed.

Lemma store_after_app writes1 writes2 store :
  store_after (writes1 ++ writes2) store = store_after writes2 (store_after writes1 store).
Proof. unfold store_after. apply fold_left_app. Qed.

(** The loop over [events.items()] and, inside it, over the events of a
    stream is one loop over the events of all the streams, in order. *)
Lemma for_each_M_concat {A} (body : A -> @M W unit) (groups : list (string * list A)) st :
  for_each_M (fun '(_, group) => for_each_M body group) groups st
  = for_each_M body (concat (map snd groups)) st.
Proof.
  revert st. induction groups as [|[name group] groups IH]; intros st; [reflexivity|].
  change (concat (map snd ((name, group) :: groups)))
    with (group ++ concat (map snd groups)).
  rewrite for_each_M_app. simpl. unfold bind.
  destruct (for_each_M body group st) as [[[]|e|] st1]; [apply IH|reflexivity..].
Qed.

(** An invocation that returns with a [runId] in its event has found a
    stream, read its events and run the loop of [store_manifest] over
    them to its end, with the run key made from [S3_PREFIX] and the
    [runId] of the event. *)
Lemma lambda_handler_Done fuel environ event context region bucket detail run_id
    (st st' : @state W) response :
  split_on ":" (invoked_function_arn context) !! 3%nat = Some region ->
  environ !! "DATA_LAKE_BUCKET" = Some bucket ->
  getitem event "detail" = Return detail ->
  getitem detail "runId" = Return run_id ->
  lambda_handler describe_log_streams get_log_events put_object json_loads json_dumps
    fuel environ event context st = (Done response, st') ->
  exists stream more st1 events st2 u,
    find_log_streams_by_prefix describe_log_streams fuel "/aws/omics/WorkflowLog"
      ("manifest/run/" +:+ py_str run_id) region (Some 10) "LogStreamName" true None st
    = (Done (stream :: more), st1)
    /\ get_log_events_by_stream_prefix describe_log_streams get_log_events fuel
         "/aws/omics/WorkflowLog" (logStreamName stream) region None None 1 None st1
       = (Done events, st2)
    /\ for_each_M
         (store_manifest put_object json_loads json_dumps bucket
            (default "" (environ !! "S3_PREFIX"))
            (default "" (environ !! "S3_PREFIX") +:+ "/runs/" +:+ py_str run_id +:+ ".json"))
         (concat (map snd events)) st2
       = (Done u, st')
    /\ puts (calls st2) = puts (calls st)
    /\ response = status_response 200 "Manifest ETL complete".
Proof.
  intros Harn Henv Hdetail Hrun H.
  unfold lambda_handler, bind at 1 2 in H. rewrite Harn, Henv in H. simpl in H.
  rewrite Hdetail, Hrun in H.
  apply bind_Done in H as (streams & st1 & Hfind & H).
  apply bind_Done in H as (stream & st1' & Hstream & H).
  destruct streams as [|first more]; [discriminate|]. injection Hstream as <- <-.
  apply bind_Done in H as (events & st2 & Hevents & H).
  apply bind_Done in H as (u & st3 & Hloop & H).
  injection H as <- <-.
  rewrite for_each_M_concat in Hloop.
  exists first, more, st1, events, st2, u.
  split; [exact Hfind|]. split; [exact Hevents|]. split; [exact Hloop|].
  split; [|reflexivity].
  transitivity (puts (calls st1)).
  - eapply reads_keep_puts; [|exact Hevents]. unfold get_log_events_by_stream_prefix.
    apply only_bind; [apply find_log_streams_by_prefix_reads|].
    intros found. apply collect_events_only.
  - eapply reads_keep_puts; [|exact Hfind]. apply find_log_streams_by_prefix_reads.
Qed.

Lemma Forall2_puts {A} (R : A -> call -> Prop) (R' : A -> string * string * string -> Prop)
    l written :
  (forall a c, R a c ->
     exists bucket key body, c = PutObject bucket key body /\ R' a (bucket, key, body)) ->
  Forall2 R l written -> Forall2 R' l (puts written).
Proof.
  intros HR. induction 1 as [|a c l written Hac _ IH]; [constructor|].
  destruct (HR _ _ Hac) as (bucket & key & body & -> & HR'). simpl.
  constructor; assumption.
Qed.



(** C10: the run key of an invocation is made from [S3_PREFIX] and the
    [runId] of the inbound event, and from nothing of the records: when
    [lambda_handler] returns, every run-level record that it read has
    been written to that one key, whatever the record's own [arn] says,
    and every task-level record to a key under [tasks]; the object at the
    run key is then the last run-level record read, or what it was before
    the invocation when there was none. *)
Theorem lambda_handler_run_manifests_share_one_key fuel environ event context region
    bucket detail run_id (st st' : @state W) response store :
  split_on ":" (invoked_function_arn context) !! 3%nat = Some region ->
  environ !! "DATA_LAKE_BUCKET" = Some bucket ->
  getitem event "detail" = Return detail ->
  getitem detail "runId" = Return run_id ->
  lambda_handler describe_log_streams get_log_events put_object json_loads json_dumps
    fuel environ event context st = (Done response, st') ->
  exists stream more found events read written,
    find_log_streams_by_prefix describe_log_streams fuel "/aws/omics/WorkflowLog"
      ("manifest/run/" +:+ py_str run_id) region (Some 10) "LogStreamName" true None st
    = (Done (stream :: more), found)
    /\ get_log_events_by_stream_prefix describe_log_streams get_log_events fuel
         "/aws/omics/WorkflowLog" (logStreamName stream) region None None 1 None found
       = (Done events, read)
    /\ puts (calls st') = puts (calls st) ++ written
    /\ Forall2
         (fun record object =>
            exists key body,
              object = (bucket, key, body)
              /\ ((run_body json_loads json_dumps record = Some body
                   /\ key = destination_key (default "" (environ !! "S3_PREFIX")) "runs"
                              (py_str run_id))
                  \/ (run_body json_loads json_dumps record = None
                      /\ exists task_id,
                           task_identifier json_loads record = Some task_id
                           /\ key = destination_key (default "" (environ !! "S3_PREFIX"))
                                      "tasks" task_id)))
         (concat (map snd events)) written
    /\ store_after (puts (calls st')) store
       !! (bucket,
           destination_key (default "" (environ !! "S3_PREFIX")) "runs" (py_str run_id))
       = match last (omap (run_body json_loads json_dumps) (concat (map snd events))) with
         | Some body => Some body
         | None =>
             store_after (puts (calls st)) store
             !! (bucket,
                 destination_key (default "" (environ !! "S3_PREFIX")) "runs"
                   (py_str run_id))
         end.
Proof.
  intros Harn Henv Hdetail Hrun H.
  destruct (lambda_handler_Done _ _ _ _ _ _ _ _ _ _ _ Harn Henv Hdetail Hrun H)
    as (stream & more & found & events & read & u & Hfind & Hread & Hloop & Hputs & _).
  destruct (run_manifests_share_one_key put_object json_loads json_dumps bucket
              (default "" (environ !! "S3_PREFIX")) (py_str run_id)
              (concat (map snd events)) read st' u (store_after (puts (calls st)) store)
              Hloop)
    as (requests & Hcalls & Hall & Hstore).
  exists stream, more, found, events, read, (puts requests).
  split; [exact Hfind|]. split; [exact Hread|].
  assert (Hwritten : puts (calls st') = puts (calls st) ++ puts requests)
    by (rewrite Hcalls, puts_app, Hputs; reflexivity).
  split; [exact Hwritten|]. split.
  - revert Hall. apply Forall2_puts.
    intros record c (key & body & -> & Hkind).
    eexists _, _, _. split; [reflexivity|]. exists key, body. split; [reflexivity|exact Hkind].
  - rewrite Hwritten, store_after_app. exact Hstore.
Qed.

End PipelineDestinations.

(** ** The runs that [reprocess_runs.py] lists *)

Lemma list_runs_page_spec {A} max_runs (items runs : list A) :
  let bound := Z.to_nat (Z.max 1 max_runs) in
  (length runs < bound)%nat ->
  list_runs_page max_runs items runs
  = if (bound <=? length runs + length items)%nat
    then inl (runs ++ take (bound - length runs) items)
    else inr (runs ++ items).
Proof.
  intros bound. revert runs. induction items as [|run rest IH]; intros runs Hlt; simpl.
  - rewrite app_nil_r. destruct (Nat.leb_spec bound (length runs + 0)); [lia|reflexivity].
  - rewrite length_app. simpl.
    destruct (Z.leb_spec max_runs (Z.of_nat (length runs + 1))).
    + assert (bound = S (length runs)) as Hb by (unfold bound in *; lia).
      destruct (Nat.leb_spec bound (length runs + S (length rest))); [|lia].
      rewrite Hb, Nat.sub_succ_l, Nat.sub_diag by lia. reflexivity.
    + rewrite IH by (rewrite length_app; simpl; unfold bound in *; lia).
      rewrite length_app. simpl.
      replace (length runs + 1 + length rest)%nat with (length runs + S (length rest))%nat
        by lia.
      destruct (Nat.leb_spec bound (length runs + S (length rest))).
      * rewrite <- app_assoc. simpl. do 2 f_equal.
        replace (bound - length runs)%nat with (S (bound - (length runs + 1)))%nat
          by (unfold bound in *; lia).
        reflexivity.
      * rewrite <- app_assoc. reflexivity.
Qed.

Lemma list_runs_pages_spec {A} max_runs (pages : list (list A)) runs :
  (length runs < Z.to_nat (Z.max 1 max_runs))%nat ->
  list_runs_pages max_runs pages runs
  = take (Z.to_nat (Z.max 1 max_runs)) (runs ++ concat pages).
Proof.
  revert runs. induction pages as [|items rest IH]; intros runs Hlt; simpl.
  - rewrite app_nil_r, take_ge by lia. reflexivity.
  - rewrite list_runs_page_spec by exact Hlt.
    destruct (Nat.leb_spec (Z.to_nat (Z.max 1 max_runs)) (length runs + length items)).
    + rewrite app_assoc, take_app_le by (rewrite length_app; lia).
      rewrite take_app_ge by lia. reflexivity.
    + rewrite IH by (rewrite length_app; lia). rewrite <- app_assoc. reflexivity.
Qed.

(** X23: [list_workflow_runs] returns the first [max_runs] runs of the
    pages, in their order; with [max_runs] 0 or less it still returns the
    first run, because the bound is tested after a run is added. *)
Theorem list_workflow_runs_spec {A} (pages : list (list A)) max_runs :
  list_workflow_runs pages max_runs = take (Z.to_nat (Z.max 1 max_runs)) (concat pages).
Proof.
  unfold list_workflow_runs. rewrite list_runs_pages_spec by (simpl; lia). reflexivity.
Qed.

(** ** The further properties on the examples *)

Lemma convert_data_types_idempotent_witness :
  convert_data_types
    (VDict [ ("arn", VStr "arn:aws:omics:us-east-1:123456789012:task/7654321");
             ("cpus", VStr "four");
             ("memory", VInt 8) ])
    TASK_MANIFEST_SCHEMA
  = ([conversion_warning (VStr "four") "cpus" int],
     Return (VDict [ ("arn", VStr "arn:aws:omics:us-east-1:123456789012:task/7654321");
                     ("cpus", VStr "four");
                     ("memory", VInt 8) ])).
Proof.
  exact (convert_data_types_idempotent TASK_MANIFEST_SCHEMA (VDict task_manifest_unreadable)
           _ _ eq_refl).
Defined.

Lemma convert_data_types_schema_field_witness :
  dict_get "memory"
    [ ("arn", VStr "arn:aws:omics:us-east-1:123456789012:task/7654321");
      ("cpus", VStr "four");
      ("memory", VInt 8) ]
  = Some (VInt 8).
Proof.
  exact (convert_data_types_schema_field TASK_MANIFEST_SCHEMA task_manifest_unreadable
           _ _ "memory" int (VStr "8") eq_refl eq_refl eq_refl).
Defined.

Lemma convert_data_types_run_schema_total_witness :
  exists v', convert_data_types run_record_nested_parameters RUN_MANIFEST_SCHEMA
             = ([], Return v').
Proof.
  apply (convert_data_types_run_schema_total run_record_nested_parameters).
  vm_compute. reflexivity.
Defined.

Lemma convert_data_types_plain_Raise_witness :
  OverflowError = TypeError \/ OverflowError = OverflowError.
Proof.
  apply (convert_data_types_plain_Raise TASK_MANIFEST_SCHEMA task_manifest_infinite []
           OverflowError); vm_compute; reflexivity.
Defined.

Lemma convert_data_types_keys_witness :
  map fst [ ("arn", VStr "arn:aws:omics:us-east-1:123456789012:task/7654321");
            ("cpus", VStr "four");
            ("memory", VInt 8) ]
  = map fst task_manifest_unreadable.
Proof.
  exact (convert_data_types_keys TASK_MANIFEST_SCHEMA task_manifest_unreadable _ _ eq_refl).
Defined.

Lemma lambda_handler_status_codes_witness :
  (status_response 200 "Manifest ETL complete"
   = status_response 400 (example_dumps (VStr "Missing required event detail"))
   /\ snd (lambda_handler example_streams example_events example_put example_loads
             example_dumps 5 example_environ run_event example_context start) = start)
  \/ status_response 200 "Manifest ETL complete"
     = status_response 200 "Manifest ETL complete".
Proof.
  refine (lambda_handler_status_codes example_streams example_events example_put
            example_loads example_dumps 5 example_environ run_event example_context start
            _ _ _).
  vm_compute. reflexivity.
Defined.

Lemma lambda_handler_missing_bucket_witness :
  lambda_handler example_streams example_events example_put example_loads example_dumps
    5 ∅ run_event example_context start
  = (Failed ValueError, start).
Proof.
  exact (lambda_handler_missing_bucket example_streams example_events example_put
           example_loads example_dumps 5 ∅ run_event example_context start eq_refl).
Defined.

Lemma lambda_handler_detail_not_mapping_witness :
  lambda_handler example_streams example_events example_put example_loads example_dumps
    5 example_environ (VDict event_null_detail) example_context start
  = (Failed TypeError, start).
Proof.
  refine (lambda_handler_detail_not_mapping example_streams example_events example_put
            example_loads example_dumps 5 example_environ event_null_detail
            example_context "us-east-1" "data-lake" VNone start eq_refl _ eq_refl _).
  - vm_compute. reflexivity.
  - discriminate.
Defined.

Lemma store_manifest_unknown_aborts_witness :
  for_each_M
    (store_manifest example_put example_loads_workflow example_dumps "data-lake"
       "workflow_manifest" "workflow_manifest/runs/1234567.json")
    ([LogEvent 1 "run manifest"] ++ LogEvent 4 "workflow manifest"
     :: [LogEvent 2 "task manifest"])
    start
  = (Failed RuntimeError,
     snd (for_each_M
            (store_manifest example_put example_loads_workflow example_dumps "data-lake"
               "workflow_manifest" "workflow_manifest/runs/1234567.json")
            [LogEvent 1 "run manifest"] start)).
Proof.
  refine (store_manifest_unknown_aborts example_put example_loads_workflow example_dumps
            "data-lake" "workflow_manifest" "workflow_manifest/runs/1234567.json"
            [LogEvent 1 "run manifest"] (LogEvent 4 "workflow manifest")
            [LogEvent 2 "task manifest"] workflow_manifest
            "arn:aws:omics:us-east-1:123456789012:workflow/2468013" start _ tt
            _ eq_refl eq_refl eq_refl).
  vm_compute. reflexivity.
Defined.

Lemma find_log_streams_by_prefix_at_most_limit_witness :
  Z.of_nat (length [ LogStream "manifest/run/1234567/a" (Some 0);
                     LogStream "manifest/run/1234567/b" (Some 0);
                     LogStream "manifest/run/1234567/a" (Some 1) ]) <= 3.
Proof.
  refine (find_log_streams_by_prefix_at_most_limit (scripted two_streams_script) 5
            "/aws/omics/WorkflowLog" "manifest/run/1234567" "us-east-1" 3 "LogStreamName"
            true None start _ _ _ _).
  - lia.
  - vm_compute. reflexivity.
Defined.

Lemma get_log_events_by_stream_prefix_at_most_witness :
  Z.of_nat (length [ ("manifest/run/1234567/0001",
                      [ LogEvent 1 "run manifest"; LogEvent 2 "task manifest";
                        LogEvent 3 "other run manifest" ]) ]) <= 1.
Proof.
  refine (get_log_events_by_stream_prefix_at_most example_streams example_events 5
            "/aws/omics/WorkflowLog" "manifest/run/1234567/0001" "us-east-1" None None 1
            None start _ _ _ _).
  - lia.
  - vm_compute. reflexivity.
Defined.

Lemma get_log_events_by_stream_prefix_keys_witness :
  "manifest/run/1234567/0001"
  ∈ map fst [ ("manifest/run/1234567/0001",
               [ LogEvent 1 "run manifest"; LogEvent 2 "task manifest";
                 LogEvent 3 "other run manifest" ]) ]
  <-> "manifest/run/1234567/0001"
      ∈ map logStreamName [LogStream "manifest/run/1234567/0001" None].
Proof.
  refine (get_log_events_by_stream_prefix_keys example_streams example_events 5
            "/aws/omics/WorkflowLog" "manifest/run/1234567/0001" "us-east-1" None None 1
            None start _ _ _ _ _ _ _).
  - vm_compute. reflexivity.
  - vm_compute. reflexivity.
Defined.

Lemma store_manifest_task_key_witness :
  store_manifest example_put example_loads example_dumps "data-lake" "workflow_manifest"
    "workflow_manifest/runs/1234567.json" (LogEvent 2 "task manifest") start
  = bind (lift_printed (convert_data_types task_manifest TASK_MANIFEST_SCHEMA))
      (write_json_to_s3 example_put example_dumps "data-lake"
         (destination_key "workflow_manifest" "tasks" "7654321"))
      start.
Proof.
  exact (store_manifest_task_key example_put example_loads example_dumps "data-lake"
           "workflow_manifest" "workflow_manifest/runs/1234567.json"
           (LogEvent 2 "task manifest") task_manifest
           "arn:aws:omics:us-east-1:123456789012:task" "7654321" start
           eq_refl eq_refl eq_refl eq_refl).
Defined.

Lemma task_identifier_no_slash_witness : has_char "/" "7654321" = false.
Proof.
  exact (task_identifier_no_slash example_loads (LogEvent 2 "task manifest") "7654321"
           eq_refl).
Defined.

Lemma lambda_handler_first_request_witness :
  exists requests,
    calls (snd (lambda_handler example_streams example_events example_put example_loads
                  example_dumps 5 example_environ run_event
                  (LambdaContext
                     ("arn" +:+ ":" +:+ "aws" +:+ ":" +:+ "lambda" +:+ ":" +:+ "us-east-1"
                      +:+ ":" +:+ "123456789012:function:manifest-etl"))
                  start))
    = calls start
      ++ DescribeLogStreams (Session None "us-east-1")
           (DescribeParams "/aws/omics/WorkflowLog" ("manifest/run/" +:+ py_str (VStr "1234567"))
              "LogStreamName" true (Some 10) None)
         :: requests.
Proof.
  refine (lambda_handler_first_request example_streams example_events example_put
            example_loads example_dumps 4 example_environ run_event "arn" "aws" "lambda"
            "us-east-1" "123456789012:function:manifest-etl" "data-lake"
            (VDict [("runId", VStr "1234567"); ("status", VStr "COMPLETED")])
            (VStr "1234567") start eq_refl eq_refl eq_refl eq_refl _ eq_refl eq_refl).
  vm_compute. reflexivity.
Defined.

Lemma lambda_handler_reprocess_payload_witness :
  exists requests,
    calls (snd (lambda_handler example_streams example_events example_put example_loads
                  example_dumps 5 example_environ
                  (reprocess_payload "1234567" "123456789012" "2025-01-01T00:00:00Z"
                     (Some "us-east-1") (VStr "COMPLETED") (VStr "Unknown"))
                  example_context start))
    = calls start
      ++ DescribeLogStreams (Session None "us-east-1")
           (DescribeParams "/aws/omics/WorkflowLog" ("manifest/run/" +:+ "1234567")
              "LogStreamName" true (Some 10) None)
         :: requests.
Proof.
  refine (lambda_handler_reprocess_payload example_streams example_events example_put
            example_loads example_dumps 4 example_environ example_context "us-east-1"
            "data-lake" "1234567" "123456789012" "2025-01-01T00:00:00Z" (Some "us-east-1")
            (VStr "COMPLETED") (VStr "Unknown") start eq_refl _).
  vm_compute. reflexivity.
Defined.

Lemma events_loop_stable_token_witness :
  exists st',
    events_loop (scripted stable_token_script) 5 handler_session run_stream_params [] None
      start
    = (Done (pages_events stable_token_script 0 2), st')
    /\ world st' = 2%nat.
Proof.
  refine (events_loop_stable_token handler_session run_stream_params stable_token_script
            "f/0000" 5 start eq_refl eq_refl _ _ _).
  - discriminate.
  - intros j. reflexivity.
  - lia.
Defined.


Lemma lambda_handler_run_manifests_share_one_key_witness :
  exists stream more found events read written,
    find_log_streams_by_prefix example_streams 5 "/aws/omics/WorkflowLog"
      ("manifest/run/" +:+ py_str (VStr "1234567")) "us-east-1" (Some 10) "LogStreamName"
      true None start
    = (Done (stream :: more), found)
    /\ get_log_events_by_stream_prefix example_streams example_events 5
         "/aws/omics/WorkflowLog" (logStreamName stream) "us-east-1" None None 1 None found
       = (Done events, read)
    /\ puts (calls (snd (example_invocation start))) = puts (calls start) ++ written
    /\ Forall2
         (fun record object =>
            exists key body,
              object = ("data-lake", key, body)
              /\ ((run_body example_loads example_dumps record = Some body
                   /\ key = destination_key (default "" (example_environ !! "S3_PREFIX"))
                              "runs" (py_str (VStr "1234567")))
                  \/ (run_body example_loads example_dumps record = None
                      /\ exists task_id,
                           task_identifier example_loads record = Some task_id
                           /\ key = destination_key
                                      (default "" (example_environ !! "S3_PREFIX"))
                                      "tasks" task_id)))
         (concat (map snd events)) written
    /\ store_after (puts (calls (snd (example_invocation start)))) ∅
       !! ("data-lake",
           destination_key (default "" (example_environ !! "S3_PREFIX")) "runs"
             (py_str (VStr "1234567")))
       = match last (omap (run_body example_loads example_dumps) (concat (map snd events))) with
         | Some body => Some body
         | None =>
             store_after (puts (calls start)) ∅
             !! ("data-lake",
                 destination_key (default "" (example_environ !! "S3_PREFIX")) "runs"
                   (py_str (VStr "1234567")))
         end.
Proof.
  apply (lambda_handler_run_manifests_share_one_key example_streams example_events
           example_put example_loads example_dumps 5 example_environ run_event
           example_context "us-east-1" "data-lake"
           (VDict [("runId", VStr "1234567"); ("status", VStr "COMPLETED")])
           (VStr "1234567") start (snd (example_invocation start))
           (status_response 200 "Manifest ETL complete") ∅);
    vm_compute; reflexivity.
Defined.
